(** * The handlers of index.js

    A shallow embedding of the Express handlers of [src/index.js] that
    keep the cart, place and read orders, manage accounts and products,
    together with the properties the specification states about them.

    Modelling conventions.
    - The MySQL store is a record of four tables, each a list of rows in
      insertion order.  A connection carries the tables, the snapshot taken
      by START TRANSACTION (restored by ROLLBACK, dropped by COMMIT), the
      AUTO_INCREMENT counter of [orders] and the server clock read by
      [NOW()].  Requests that come one after another are served by one
      connection of the pool, and a statement takes effect when it is
      sent.
    - The file takes the driver with [require("mysql2")], the callback
      build, and never asks for its promise wrapper.  [connection.query],
      [beginTransaction], [commit] and [rollback] therefore queue their
      statement and hand back a Query object; the handlers [await] that
      object, and awaiting it throws ([awaited] below).  What a handler
      writes after such an [await] is kept as the source has it.
    - A handler whose promise rejects sends no response; what the process
      does with the rejection is not modelled.
    - The members of a request body are absent or integer numbers, as the
      handler receives them: identifiers, quantities and amounts in minor
      units.  Path and query parameters are plain strings without percent
      escapes.
    - The schema is not part of the source.  No foreign key is modelled,
      the columns hold every integer sent to them, and a statement fails
      only where the model says so. *)

From Stdlib Require Import ZArith List String Ascii Bool Lia.
From Stdlib Require Import DecimalString DecimalPos DecimalZ.
From stdpp Require Import base list gmap sorting.
Import ListNotations.

Local Open Scope string_scope.
Local Open Scope Z_scope.

(** ** JavaScript values of the request *)

(** A member of a request body that is absent ([None], [undefined] in the
    handler) or a number whose value, once [express.json] has parsed it,
    is the integer [n]. *)
Definition field := option Z.

(** [!x] is false exactly for these. *)
Definition truthy (x : field) : bool :=
  match x with
  | Some n => negb (n =? 0)
  | None => false
  end.

(** Value sent to the database for a field the validation let through. *)
Definition num (x : field) : Z :=
  match x with
  | Some n => n
  | None => 0
  end.

(** Truthiness of a string: the empty string is falsy. *)
Definition truthy_str (s : string) : bool :=
  match s with
  | EmptyString => false
  | String _ _ => true
  end.

(** An optional query parameter: [undefined] and [""] are falsy. *)
Definition truthy_opt (s : option string) : bool :=
  match s with
  | Some s => truthy_str s
  | None => false
  end.

(** Decimal rendering of a number, as in a template literal. *)
Definition string_of_Z (n : Z) : string :=
  NilZero.string_of_int (Z.to_int n).

(** Decimal integer literals. *)
Definition Z_of_string (s : string) : option Z :=
  option_map Z.of_int (NilZero.int_of_string s).

(** ** Tables *)

Record datetime := mkDate {
  year : Z; month : Z; day : Z; hour : Z; minute : Z; second : Z
}.

Record product := mkProduct {
  p_id : Z; p_name : string; p_price : Z; p_image : string
}.

Record cart_row := mkCart {
  c_user_id : Z; c_product_id : Z; c_quantity : Z
}.

Record order_row := mkOrder {
  o_id : Z; o_user_id : Z; o_order_date : datetime; o_total_amount : Z
}.

Record order_item_row := mkOrderItem {
  oi_order_id : Z; oi_product_id : Z; oi_quantity : Z; oi_price : Z
}.

Record tables := mkTables {
  products : list product;
  cart : list cart_row;
  orders : list order_row;
  order_items : list order_item_row
}.

Record conn := mkConn {
  data : tables;
  saved : option tables;
  next_order_id : Z;
  now : datetime
}.

(** ** Handlers as state-and-exception computations *)

Record error := mkError { message : string }.

Inductive outcome (A : Type) :=
| Ok (a : A)
| Throw (e : error).
Arguments Ok {A} a.
Arguments Throw {A} e.

Definition M (A : Type) : Type := conn -> outcome A * conn.

Definition ret {A} (a : A) : M A := fun c => (Ok a, c).

Definition throw {A} (e : error) : M A := fun c => (Throw e, c).

Definition bind {A B} (m : M A) (k : A -> M B) : M B :=
  fun c =>
    match m c with
    | (Ok a, c') => k a c'
    | (Throw e, c') => (Throw e, c')
    end.

Definition try_catch {A} (m : M A) (h : error -> M A) : M A :=
  fun c =>
    match m c with
    | (Ok a, c') => (Ok a, c')
    | (Throw e, c') => h e c'
    end.

Notation "'await' x ':=' m 'in' k" := (bind m (fun x => k))
  (at level 10, x name, m at level 100, k at level 200).

(** ** Order of dates *)

(** Chronological order of DATETIME values: field by field. *)
Definition date_fields (d : datetime) : list Z :=
  [year d; month d; day d; hour d; minute d; second d].

Fixpoint lex_le (a b : list Z) : bool :=
  match a, b with
  | x :: a', y :: b' => (x <? y) || ((x =? y) && lex_le a' b')
  | [], _ => true
  | _ :: _, [] => false
  end.

Definition date_le (a b : datetime) : bool :=
  lex_le (date_fields a) (date_fields b).

(** ORDER BY o.order_date DESC *)
Definition newest_first (a b : order_row) : Prop :=
  date_le (o_order_date b) (o_order_date a) = true.

#[export] Instance newest_first_dec a b : Decision (newest_first a b).
Proof. unfold newest_first. apply _. Defined.

(** ** Parameters bound to a statement *)

(** mysql2 sends a number as it is and a string as a quoted literal. *)
Inductive sqlparam :=
| PNum (n : Z)
| PStr (s : string).

(** ** What the source leaves open

    The database server, the driver and the process the handlers run in
    are not part of the source; the handlers are read against them.
    - [sql_int]: the integer an INT column must hold to equal a quoted
      string, when there is one; the conversion is the server's.
    - [not_a_promise]: the message of the error that awaiting a Query
      object throws; the text is the driver's, whose version the source
      does not fix.
    - [to_utc]: a DATETIME arrives as a Date in the time zone of the
      process; [to_utc] gives the UTC fields of that moment.
    - [node_now]: what [new Date()] reads, in UTC fields. *)
Record environment := mkEnvironment {
  sql_int : string -> option Z;
  not_a_promise : string;
  to_utc : datetime -> datetime;
  node_now : datetime
}.

Section Store.

Variable env : environment.

(** ** The driver

    [await connection.query(...)], and likewise [beginTransaction],
    [commit] and [rollback]: the statement goes to the server, which runs
    it (a statement it turns down changes nothing), and the [await] of
    the Query object that comes back throws. *)
Definition awaited {A} (statement : M A) : M A :=
  fun c => (Throw (mkError (not_a_promise env)), snd (statement c)).

Definition col_eq (col : Z) (p : sqlparam) : bool :=
  match p with
  | PNum n => col =? n
  | PStr s => match sql_int env s with
              | Some n => col =? n
              | None => false
              end
  end.

(** ** Transactions

    START TRANSACTION, COMMIT and ROLLBACK as the server runs them. *)

Definition beginTransaction : M unit :=
  fun c => (Ok tt, mkConn (data c) (Some (data c)) (next_order_id c) (now c)).

Definition commit : M unit :=
  fun c => (Ok tt, mkConn (data c) None (next_order_id c) (now c)).

(** The AUTO_INCREMENT counter is not part of what a rollback restores. *)
Definition rollback : M unit :=
  fun c =>
    (Ok tt, mkConn (match saved c with Some t => t | None => data c end)
                   None (next_order_id c) (now c)).

Definition with_data (f : tables -> tables) (c : conn) : conn :=
  mkConn (f (data c)) (saved c) (next_order_id c) (now c).

(** ** Statements *)

Definition set_cart (l : list cart_row) (t : tables) : tables :=
  mkTables (products t) l (orders t) (order_items t).

(** SELECT id FROM products WHERE id = ? *)
Definition select_product (id : sqlparam) : M (list product) :=
  fun c => (Ok (List.filter (fun p => col_eq (p_id p) id) (products (data c))), c).

Definition cart_key (user_id product_id : sqlparam) (r : cart_row) : bool :=
  col_eq (c_user_id r) user_id && col_eq (c_product_id r) product_id.

(** SELECT * FROM cart WHERE user_id = ? AND product_id = ? *)
Definition select_cart (user_id product_id : sqlparam) : M (list cart_row) :=
  fun c => (Ok (List.filter (cart_key user_id product_id) (cart (data c))), c).

(** UPDATE cart SET quantity = ? WHERE user_id = ? AND product_id = ?;
    the result is [affectedRows]. *)
Definition set_quantity (q : Z) (user_id product_id : sqlparam)
    (r : cart_row) : cart_row :=
  if cart_key user_id product_id r
  then mkCart (c_user_id r) (c_product_id r) q
  else r.

Definition update_cart (q : Z) (user_id product_id : sqlparam) : M Z :=
  fun c =>
    (Ok (Z.of_nat (length (List.filter (cart_key user_id product_id)
                                       (cart (data c))))),
     with_data (fun t => set_cart (map (set_quantity q user_id product_id)
                                       (cart t)) t) c).

(** Modelled from the spec: the schema of the [cart] table is not part of
    the source; the data model gives it the composite key
    (user_id, product_id), which an INSERT of a second row for the same
    pair violates. *)
Definition duplicate_key (user_id product_id : Z) (l : list cart_row) : bool :=
  existsb (fun r => (c_user_id r =? user_id) && (c_product_id r =? product_id)) l.

(** INSERT INTO cart (user_id, product_id, quantity) VALUES (?, ?, ?) *)
Definition insert_cart (user_id product_id q : Z) : M unit :=
  fun c =>
    if duplicate_key user_id product_id (cart (data c))
    then (Throw (mkError "Duplicate entry"), c)
    else (Ok tt,
          with_data (fun t => set_cart (cart t ++ [mkCart user_id product_id q]) t) c).

(** INSERT INTO cart ... VALUES (?, ?, ?) ON DUPLICATE KEY UPDATE quantity = ? *)
Definition upsert_cart (user_id product_id q q' : Z) : M unit :=
  fun c =>
    if duplicate_key user_id product_id (cart (data c))
    then (Ok tt,
          with_data (fun t => set_cart
             (map (set_quantity q' (PNum user_id) (PNum product_id)) (cart t)) t) c)
    else (Ok tt,
          with_data (fun t => set_cart (cart t ++ [mkCart user_id product_id q]) t) c).

(** DELETE FROM cart WHERE user_id = ? AND product_id = ? *)
Definition delete_cart (user_id product_id : sqlparam) : M Z :=
  fun c =>
    (Ok (Z.of_nat (length (List.filter (cart_key user_id product_id)
                                       (cart (data c))))),
     with_data (fun t => set_cart
        (List.filter (fun r => negb (cart_key user_id product_id r)) (cart t)) t) c).

(** DELETE FROM cart WHERE user_id = ? *)
Definition delete_cart_of_user (user_id : sqlparam) : M unit :=
  fun c =>
    (Ok tt,
     with_data (fun t => set_cart
        (List.filter (fun r => negb (col_eq (c_user_id r) user_id)) (cart t)) t) c).


(** ** Responses *)

Record cart_view := mkCartView {
  cv_product_id : Z; cv_quantity : Z; cv_name : string; cv_price : Z;
  cv_image : string
}.

Record item_view := mkItemView {
  iv_product_id : Z; iv_name : string; iv_price : Z; iv_quantity : Z;
  iv_image : string
}.

Record order_view := mkOrderView {
  ov_id : string; ov_date : string; ov_total : Z; ov_items : list item_view
}.

(** The JSON documents the handlers answer with.  The [stack] member of
    an error document depends on the environment and is left out.
    [BNoRoute] is the page Express itself sends where no route matches. *)
Inductive body :=
| BError (error : string) (details : option string)
| BNoRoute
| BOrderNotFound (error orderId userId : string)
| BMessage (message : string)
| BCartItem (message : string) (user_id product_id quantity : Z)
| BCart (message : option string) (cartItems : list cart_view)
        (totalItems totalValue : Z)
| BRemoved (message : string) (deletedRows : Z)
| BQuantity (message : string) (updatedQuantity : Z)
| BOrderPlaced (message : string) (orderId : Z)
| BOrders (l : list order_view)
| BOrder (o : order_view)
| BSingleOrder (id : string) (userId productId quantity totalAmount : Z)
               (orderDate name image : string).

Record response := mkResponse { status : Z; json : body }.

(** ** Cart store *)

(** POST /api/cart, first registration: what follows the SELECT. *)
Definition cart_add_write (user_id product_id quantity : Z)
    (existingCartItems : list cart_row) : M response :=
  match existingCartItems with
  | first :: _ =>
      let newQuantity := c_quantity first + quantity in
      await _ := awaited (update_cart newQuantity (PNum user_id) (PNum product_id)) in
      ret (mkResponse 200
             (BCartItem "Cart updated successfully" user_id product_id newQuantity))
  | [] =>
      await _ := awaited (insert_cart user_id product_id quantity) in
      ret (mkResponse 200
             (BCartItem "Product added to cart successfully"
                        user_id product_id quantity))
  end.

Definition cart_failed (err : error) : M response :=
  ret (mkResponse 500 (BError "Failed to manage cart" (Some (message err)))).

(** POST /api/cart, first registration. *)
Definition cart_add (user_id product_id quantity : field) : M response :=
  if negb (truthy user_id) || negb (truthy product_id) || negb (truthy quantity)
  then ret (mkResponse 400
              (BError "User ID, Product ID, and Quantity are required" None))
  else
    try_catch
      (await existingCartItems :=
         awaited (select_cart (PNum (num user_id)) (PNum (num product_id))) in
       cart_add_write (num user_id) (num product_id) (num quantity)
                      existingCartItems)
      cart_failed.

(** [parseInt(quantity, 10)] of a member that is absent or an integer
    number: the number itself, since its decimal form is read back whole
    (below 10^21, where the decimal form has no exponent). *)
Definition parseInt (x : field) : option Z := x.

(** [isNaN(parsedQuantity) || parsedQuantity <= 0]. *)
Definition nan_or_le0 (parsed : option Z) : bool :=
  match parsed with
  | Some n => n <=? 0
  | None => true
  end.

(** [isNaN(parsedQuantity) || parsedQuantity < 1]. *)
Definition nan_or_lt1 (parsed : option Z) : bool :=
  match parsed with
  | Some n => n <? 1
  | None => true
  end.

(** POST /api/cart, second registration ("Enhanced version with
    additional checks"). *)
Definition cart_add_enhanced (user_id product_id quantity : field) : M response :=
  if negb (truthy user_id) || negb (truthy product_id) || negb (truthy quantity)
  then ret (mkResponse 400
              (BError "User ID, Product ID, and Quantity are required" None))
  else
    let parsedQuantity := parseInt quantity in
    if nan_or_le0 parsedQuantity
    then ret (mkResponse 400 (BError "Quantity must be a positive number" None))
    else
      try_catch
        (await _ := awaited beginTransaction in
         await productCheck := awaited (select_product (PNum (num product_id))) in
         match productCheck with
         | [] =>
             await _ := awaited rollback in
             ret (mkResponse 404 (BError "Product not found" None))
         | _ :: _ =>
             await existingCartItems :=
               awaited (select_cart (PNum (num user_id)) (PNum (num product_id))) in
             await result :=
               match existingCartItems with
               | first :: _ =>
                   let newQuantity := c_quantity first + num parsedQuantity in
                   await _ := awaited (update_cart newQuantity (PNum (num user_id))
                                          (PNum (num product_id))) in
                   ret (BCartItem "Cart updated successfully"
                                  (num user_id) (num product_id) newQuantity)
               | [] =>
                   await _ := awaited (insert_cart (num user_id) (num product_id)
                                          (num parsedQuantity)) in
                   ret (BCartItem "Product added to cart successfully"
                                  (num user_id) (num product_id)
                                  (num parsedQuantity))
               end in
             await _ := awaited commit in
             ret (mkResponse 200 result)
         end)
        (fun err => await _ := awaited rollback in cart_failed err).

(** The join of GET /api/cart/:userId. *)
Definition join_cart (ps : list product) (r : cart_row) : list cart_view :=
  map (fun p => mkCartView (c_product_id r) (c_quantity r)
                           (p_name p) (p_price p) (p_image p))
      (List.filter (fun p => c_product_id r =? p_id p) ps).

Definition select_cart_join (userId : sqlparam) : M (list cart_view) :=
  fun c =>
    (Ok (flat_map (join_cart (products (data c)))
           (List.filter (fun r => col_eq (c_user_id r) userId) (cart (data c)))),
     c).

(** GET /api/cart/:userId *)
Definition cart_get (userId : string) : M response :=
  if negb (truthy_str userId)
  then ret (mkResponse 400 (BError "User ID is required" None))
  else
    try_catch
      (await results := awaited (select_cart_join (PStr userId)) in
       match results with
       | [] => ret (mkResponse 200 (BCart (Some "Cart is empty") [] 0 0))
       | _ :: _ =>
           let totalValue :=
             fold_left (fun total item => total + cv_price item * cv_quantity item)
                       results 0 in
           ret (mkResponse 200
                  (BCart None results (Z.of_nat (length results)) totalValue))
       end)
      (fun err => ret (mkResponse 500
                         (BError "Error fetching cart" (Some (message err))))).

Definition database_error (err : error) : M response :=
  ret (mkResponse 500 (BError "Database error" (Some (message err)))).

(** [quantity <= 0]; the comparison with [undefined] is false. *)
Definition le_zero (quantity : field) : bool :=
  match quantity with
  | Some n => n <=? 0
  | None => false
  end.

(** POST /api/cart/update *)
Definition cart_update (userId productId quantity : field) : M response :=
  if negb (truthy userId) || negb (truthy productId)
     || match quantity with None => true | Some _ => false end
  then ret (mkResponse 400
              (BError "User ID, Product ID, and Quantity are required" None))
  else
    try_catch
      (if le_zero quantity
       then
         await _ := awaited (delete_cart (PNum (num userId)) (PNum (num productId))) in
         ret (mkResponse 200 (BMessage "Item removed from cart successfully"))
       else
         await _ := awaited (upsert_cart (num userId) (num productId)
                                (num quantity) (num quantity)) in
         ret (mkResponse 200 (BMessage "Cart updated successfully")))
      database_error.

(** DELETE /api/cart/remove *)
Definition cart_remove (userId productId : field) : M response :=
  if negb (truthy userId) || negb (truthy productId)
  then ret (mkResponse 400 (BError "User ID and Product ID are required" None))
  else
    try_catch
      (await affectedRows :=
         awaited (delete_cart (PNum (num userId)) (PNum (num productId))) in
       if affectedRows =? 0
       then ret (mkResponse 404 (BError "Item not found in cart" None))
       else ret (mkResponse 200
                   (BRemoved "Item removed from cart successfully" affectedRows)))
      database_error.

(** PUT /api/cart/update-quantity *)
Definition cart_update_quantity (userId productId quantity : field) : M response :=
  if negb (truthy userId) || negb (truthy productId)
     || match quantity with None => true | Some _ => false end
  then ret (mkResponse 400
              (BError "User ID, Product ID, and Quantity are required" None))
  else
    let parsedQuantity := parseInt quantity in
    if nan_or_lt1 parsedQuantity
    then ret (mkResponse 400 (BError "Quantity must be a positive number" None))
    else
      try_catch
        (await affectedRows :=
           awaited (update_cart (num parsedQuantity) (PNum (num userId))
                       (PNum (num productId))) in
         if affectedRows =? 0
         then ret (mkResponse 404 (BError "Cart item not found" None))
         else ret (mkResponse 200
                     (BQuantity "Cart item quantity updated successfully"
                                (num parsedQuantity))))
        database_error.

(** ** Checkout workflow *)

(** A line of the [items] array of POST /api/orders/place whose members
    [id], [quantity] and [price] are integer numbers. *)
Record item := mkItem { item_id : Z; item_quantity : Z; item_price : Z }.

Definition set_orders (l : list order_row) (t : tables) : tables :=
  mkTables (products t) (cart t) l (order_items t).

Definition set_order_items (l : list order_item_row) (t : tables) : tables :=
  mkTables (products t) (cart t) (orders t) l.

(** INSERT INTO orders (user_id, order_date, total_amount) VALUES (?, NOW(), ?);
    the result is [insertId]. *)
Definition insert_order (userId totalAmount : Z) : M Z :=
  fun c =>
    let insertId := next_order_id c in
    (Ok insertId,
     mkConn (set_orders (orders (data c)
                         ++ [mkOrder insertId userId (now c) totalAmount])
                        (data c))
            (saved c) (insertId + 1) (now c)).

(** INSERT INTO order_items (order_id, product_id, quantity, price) VALUES ... *)
Definition insert_order_items (values : list order_item_row) : M unit :=
  fun c =>
    (Ok tt, with_data (fun t => set_order_items (order_items t ++ values) t) c).

(** [!items || items.length === 0] *)
Definition no_items (items : option (list item)) : bool :=
  match items with
  | Some l => Nat.eqb (length l) 0
  | None => true
  end.

(** POST /api/orders/place *)
Definition orders_place (userId : field) (items : option (list item)) : M response :=
  if negb (truthy userId) || no_items items
  then ret (mkResponse 400 (BError "User ID and items are required" None))
  else
    let items := default [] items in
    try_catch
      (await _ := awaited beginTransaction in
       let totalAmount :=
         fold_left (fun total item => total + item_price item * item_quantity item)
                   items 0 in
       await orderId := awaited (insert_order (num userId) totalAmount) in
       let orderItemsValues :=
         map (fun item => mkOrderItem orderId (item_id item)
                                      (item_quantity item) (item_price item))
             items in
       await _ := awaited (insert_order_items orderItemsValues) in
       await _ := awaited (delete_cart_of_user (PNum (num userId))) in
       await _ := awaited commit in
       ret (mkResponse 200 (BOrderPlaced "Order placed successfully" orderId)))
      (fun err =>
         await _ := awaited rollback in
         ret (mkResponse 500 (BError "Failed to place order" (Some (message err))))).

(** ** Dates and identifiers as strings *)

Definition digit (n : Z) : ascii := ascii_of_nat (48 + Z.to_nat (n mod 10)).

Definition pad2 (n : Z) : string :=
  String (digit (n / 10)) (String (digit n) "").

Definition pad4 (n : Z) : string :=
  String (digit (n / 1000)) (String (digit (n / 100)) (pad2 n)).

(** The year of an ISO date: four digits, or a sign and six digits outside
    0..9999. *)
Definition iso_year (y : Z) : string :=
  if (0 <=? y) && (y <=? 9999) then pad4 y
  else String (if y <? 0 then "-" else "+")
         (String (digit (Z.abs y / 100000))
            (String (digit (Z.abs y / 10000)) (pad4 (Z.abs y)))).

Definition iso_date (d : datetime) : string :=
  iso_year (year d) ++ "-" ++ pad2 (month d) ++ "-" ++ pad2 (day d).

(** [Date.prototype.toISOString] of a moment given by its UTC fields. *)
Definition toISOString (d : datetime) : string :=
  iso_date d ++ "T" ++ pad2 (hour d) ++ ":" ++ pad2 (minute d) ++ ":"
  ++ pad2 (second d) ++ ".000Z".

(** [s.split(sep)[0]] for a separator of one character. *)
Fixpoint split_head (sep : ascii) (s : string) : string :=
  match s with
  | EmptyString => EmptyString
  | String c s' => if Ascii.eqb c sep then EmptyString
                   else String c (split_head sep s')
  end.

Fixpoint skip (n : nat) (s : string) : string :=
  match n, s with
  | S n', String _ s' => skip n' s'
  | _, _ => s
  end.

(** [s.replace(pat, "")] for a non-empty string pattern: the first
    occurrence is removed. *)
Fixpoint remove_first (pat s : string) : string :=
  match s with
  | EmptyString => EmptyString
  | String c s' =>
      if String.prefix pat s then skip (String.length pat) s
      else String c (remove_first pat s')
  end.

Definition order_display_id (order_id : Z) : string :=
  "ORD-" ++ string_of_Z order_id.

(** [new Date(order.order_date).toISOString().split("T")[0]] *)
Definition order_display_date (d : datetime) : string :=
  split_head "T" (toISOString (to_utc env d)).

(** POST /api/single-order *)
Definition single_order (userId productId quantity : field) : M response :=
  if negb (truthy userId) || negb (truthy productId) || negb (truthy quantity)
  then ret (mkResponse 400
              (BError "Invalid order data"
                      (Some "User ID, Product ID, and Quantity are required")))
  else
    try_catch
      (await _ := awaited beginTransaction in
       try_catch
         (await productResults := awaited (select_product (PNum (num productId))) in
          match productResults with
          | [] => throw (mkError "Product not found")
          | product :: _ =>
              let totalAmount := p_price product * num quantity in
              await orderId := awaited (insert_order (num userId) totalAmount) in
              await _ := awaited (insert_order_items
                           [mkOrderItem orderId (num productId) (num quantity)
                                        (p_price product)]) in
              await _ := awaited commit in
              ret (mkResponse 201
                     (BSingleOrder (order_display_id orderId) (num userId)
                        (num productId) (num quantity) totalAmount
                        (toISOString (node_now env))
                        (p_name product) (p_image product)))
          end)
         (fun error => await _ := awaited rollback in throw error))
      (fun err => ret (mkResponse 500
                         (BError "Failed to create order" (Some (message err))))).

(** ** Order query service *)

(** SELECT o.id AS order_id, o.order_date, o.total_amount FROM orders o
    WHERE o.user_id = ? ORDER BY o.order_date DESC *)
Definition select_orders_of_user (userId : sqlparam) : M (list order_row) :=
  fun c =>
    (Ok (merge_sort newest_first
           (List.filter (fun o => col_eq (o_user_id o) userId) (orders (data c)))),
     c).

(** SELECT ... FROM orders o WHERE o.id = ? AND o.user_id = ? *)
Definition select_order (orderId userId : sqlparam) : M (list order_row) :=
  fun c =>
    (Ok (List.filter (fun o => col_eq (o_id o) orderId && col_eq (o_user_id o) userId)
                     (orders (data c))),
     c).

(** A row of order_items joined with its product. *)
Record item_result := mkItemResult {
  ir_order_id : Z; ir_product_id : Z; ir_name : string; ir_price : Z;
  ir_quantity : Z; ir_image : string
}.

Definition join_item (ps : list product) (oi : order_item_row) : list item_result :=
  map (fun p => mkItemResult (oi_order_id oi) (oi_product_id oi) (p_name p)
                             (oi_price oi) (oi_quantity oi) (p_image p))
      (List.filter (fun p => oi_product_id oi =? p_id p) ps).

(** SELECT oi.order_id, oi.product_id, p.name, oi.price, oi.quantity, p.image
    FROM order_items oi JOIN products p ON oi.product_id = p.id
    WHERE oi.order_id IN (?) *)
Definition select_items_in (orderIds : list Z) : M (list item_result) :=
  fun c =>
    (Ok (flat_map (join_item (products (data c)))
           (List.filter (fun oi => existsb (Z.eqb (oi_order_id oi)) orderIds)
                        (order_items (data c)))),
     c).

(** The same join, WHERE oi.order_id = ? *)
Definition select_items_of (orderId : sqlparam) : M (list item_result) :=
  fun c =>
    (Ok (flat_map (join_item (products (data c)))
           (List.filter (fun oi => col_eq (oi_order_id oi) orderId)
                        (order_items (data c)))),
     c).

Definition view_item (item : item_result) : item_view :=
  mkItemView (ir_product_id item) (ir_name item) (ir_price item)
             (ir_quantity item) (ir_image item).

(** The callback of [itemResults.reduce]: the object [acc] maps an order
    id to the array of its items. *)
Definition group_item (acc : gmap Z (list item_view)) (item : item_result)
    : gmap Z (list item_view) :=
  let acc := match acc !! ir_order_id item with
             | None => <[ir_order_id item := []]> acc
             | Some _ => acc
             end in
  alter (fun l => (l ++ [view_item item])%list) (ir_order_id item) acc.

Definition view_order (orderItemsMap : gmap Z (list item_view)) (order : order_row)
    : order_view :=
  mkOrderView (order_display_id (o_id order))
              (order_display_date (o_order_date order))
              (o_total_amount order)
              (default [] (orderItemsMap !! o_id order)).

(** GET /api/orders *)
Definition orders_list (userId : option string) : M response :=
  if negb (truthy_opt userId)
  then ret (mkResponse 400 (BError "User ID is required" None))
  else
    try_catch
      (await orderResults := awaited (select_orders_of_user (PStr (default "" userId))) in
       match orderResults with
       | [] => ret (mkResponse 200 (BOrders []))
       | _ :: _ =>
           let orderIds := map o_id orderResults in
           await itemResults := awaited (select_items_in orderIds) in
           let orderItemsMap := fold_left group_item itemResults ∅ in
           let processedOrders := map (view_order orderItemsMap) orderResults in
           ret (mkResponse 200 (BOrders processedOrders))
       end)
      (fun err => ret (mkResponse 500
                         (BError "Failed to retrieve orders" (Some (message err))))).

(** GET /api/orders/:orderId, first registration. *)
Definition order_get (orderId : string) (userId : option string) : M response :=
  if negb (truthy_opt userId) || negb (truthy_str orderId)
  then ret (mkResponse 400 (BError "User ID and Order ID are required" None))
  else
    let numericOrderId := remove_first "ORD-" orderId in
    try_catch
      (await orderResults :=
         awaited (select_order (PStr numericOrderId) (PStr (default "" userId))) in
       match orderResults with
       | [] => ret (mkResponse 404 (BError "Order not found" None))
       | order :: _ =>
           await itemResults := awaited (select_items_of (PStr numericOrderId)) in
           let processedOrder :=
             mkOrderView (order_display_id (o_id order))
                         (order_display_date (o_order_date order))
                         (o_total_amount order)
                         (map view_item itemResults) in
           ret (mkResponse 200 (BOrder processedOrder))
       end)
      (fun err => ret (mkResponse 500
                         (BError "Failed to retrieve order details"
                                 (Some (message err))))).

End Store.

(** ** Routing *)

Inductive verb := GET | POST | PUT | DELETE.

Inductive segment :=
| Lit (s : string)
| Param (name : string).

(** The handlers registered for the cart and order paths. *)
Inductive handler :=
| h_cart_add
| h_cart_add_enhanced
| h_cart_get
| h_cart_update
| h_cart_remove
| h_orders_place
| h_orders_list
| h_order_get
| h_cart_update_quantity
| h_order_get_joined
| h_orders_list_again
| h_single_order.

(** The registrations in the order of the source file.  The routes left
    out (signup, signin, products, cart/details) have a literal path that
    none of the requests below can take. *)
Definition registrations : list (verb * list segment * handler) :=
  [ (POST, [Lit "api"; Lit "cart"], h_cart_add);
    (POST, [Lit "api"; Lit "cart"], h_cart_add_enhanced);
    (GET, [Lit "api"; Lit "cart"; Param "userId"], h_cart_get);
    (POST, [Lit "api"; Lit "cart"; Lit "update"], h_cart_update);
    (DELETE, [Lit "api"; Lit "cart"; Lit "remove"], h_cart_remove);
    (POST, [Lit "api"; Lit "orders"; Lit "place"], h_orders_place);
    (GET, [Lit "api"; Lit "orders"], h_orders_list);
    (GET, [Lit "api"; Lit "orders"; Param "orderId"], h_order_get);
    (PUT, [Lit "api"; Lit "cart"; Lit "update-quantity"], h_cart_update_quantity);
    (GET, [Lit "api"; Lit "orders"; Param "orderId"], h_order_get_joined);
    (GET, [Lit "api"; Lit "orders"], h_orders_list_again);
    (POST, [Lit "api"; Lit "single-order"], h_single_order) ].

Definition verb_eqb (a b : verb) : bool :=
  match a, b with
  | GET, GET | POST, POST | PUT, PUT | DELETE, DELETE => true
  | _, _ => false
  end.

(** Express compiles a path with neither "case sensitive routing" nor
    "strict routing" set: letters match without regard to case, and one
    slash may trail the path. *)
Definition lower (c : ascii) : ascii :=
  let n := nat_of_ascii c in
  if Nat.leb 65 n && Nat.leb n 90 then ascii_of_nat (n + 32) else c.

Fixpoint lowercase (s : string) : string :=
  match s with
  | EmptyString => EmptyString
  | String c s' => String (lower c) (lowercase s')
  end.

Definition same_segment (lit x : string) : bool :=
  String.eqb (lowercase lit) (lowercase x).

(** A request path is the list of its segments, the last one empty when a
    slash trails the path; a parameter takes one segment that is not
    empty. *)
Fixpoint match_path (pat : list segment) (path : list string) : bool :=
  match pat, path with
  | [], [] => true
  | [], [EmptyString] => true
  | Lit s :: pat', x :: path' => same_segment s x && match_path pat' path'
  | Param _ :: pat', x :: path' => truthy_str x && match_path pat' path'
  | _, _ => false
  end.

(** No handler calls [next]: the first registration that matches answers. *)
Fixpoint route_in (rs : list (verb * list segment * handler))
    (v : verb) (path : list string) : option handler :=
  match rs with
  | [] => None
  | (v', pat, h) :: rs' =>
      if verb_eqb v' v && match_path pat path then Some h
      else route_in rs' v path
  end.

Definition route : verb -> list string -> option handler :=
  route_in registrations.

(** The members of [req.body], [req.query] and [req.params] the handlers
    read. *)
Record request := mkRequest {
  req_verb : verb;
  req_path : list string;
  query_userId : option string;
  body_user_id : field;
  body_product_id : field;
  body_userId : field;
  body_productId : field;
  body_quantity : field;
  body_items : option (list item)
}.

(** [req.params]: the third segment of the paths that have a parameter,
    which Express hands over as it is when it has no percent escape. *)
Definition path_param (req : request) : string :=
  nth 2 (req_path req) "".

Section Application.

Variable env : environment.

(** GET /api/orders/:orderId, second registration: one joined query, the
    order id passed as it came. *)
Definition select_order_joined (orderId userId : sqlparam)
    : M (list (order_row * item_result)) :=
  fun c =>
    (Ok (flat_map
           (fun o =>
              map (pair o)
                  (flat_map (join_item (products (data c)))
                     (List.filter (fun oi => o_id o =? oi_order_id oi)
                                  (order_items (data c)))))
           (List.filter (fun o => col_eq env (o_id o) orderId
                                  && col_eq env (o_user_id o) userId)
                        (orders (data c)))),
     c).

Definition order_get_joined (orderId : string) (userId : option string)
    : M response :=
  if negb (truthy_opt userId) || negb (truthy_str orderId)
  then ret (mkResponse 400 (BError "User ID and Order ID are required" None))
  else
    try_catch
      (await results :=
         awaited env
           (select_order_joined (PStr orderId) (PStr (default "" userId))) in
       match results with
       | [] => ret (mkResponse 404
                      (BOrderNotFound "Order not found" orderId
                                      (default "" userId)))
       | (order, _) :: _ =>
           ret (mkResponse 200
                  (BOrder (mkOrderView (order_display_id (o_id order))
                             (order_display_date env (o_order_date order))
                             (o_total_amount order)
                             (map (fun r => view_item (snd r)) results))))
       end)
      (fun err => ret (mkResponse 500
                         (BError "Failed to retrieve order details"
                                 (Some (message err))))).

(** The second GET /api/orders differs from the first in what it logs
    and in the [stack] member only: both are [orders_list]. *)
Definition handle (h : handler) (req : request) : M response :=
  match h with
  | h_cart_add =>
      cart_add env (body_user_id req) (body_product_id req) (body_quantity req)
  | h_cart_add_enhanced =>
      cart_add_enhanced env (body_user_id req) (body_product_id req)
                        (body_quantity req)
  | h_cart_get => cart_get env (path_param req)
  | h_cart_update =>
      cart_update env (body_userId req) (body_productId req) (body_quantity req)
  | h_cart_remove => cart_remove env (body_userId req) (body_productId req)
  | h_orders_place => orders_place env (body_userId req) (body_items req)
  | h_orders_list | h_orders_list_again => orders_list env (query_userId req)
  | h_order_get => order_get env (path_param req) (query_userId req)
  | h_cart_update_quantity =>
      cart_update_quantity env (body_userId req) (body_productId req)
                           (body_quantity req)
  | h_order_get_joined => order_get_joined (path_param req) (query_userId req)
  | h_single_order =>
      single_order env (body_userId req) (body_productId req)
                   (body_quantity req)
  end.

(** The cart and order paths of the application.  Where none of their
    registrations matches, the request goes on to the account and product
    registrations, which [handle] does not cover, and where none of those
    matches either Express answers with its 404 page; [app] gives that
    page for both, and the properties speak of [app] where one of these
    registrations matches. *)
Definition app (req : request) : M response :=
  match route (req_verb req) (req_path req) with
  | Some h => handle h req
  | None => ret (mkResponse 404 BNoRoute)
  end.

(** *** The operations of the specification, as requests *)

Definition addOrMerge (user_id product_id quantity : field) : M response :=
  app (mkRequest POST ["api"; "cart"] None
                 user_id product_id None None quantity None).

Definition setQuantity (userId productId quantity : field) : M response :=
  app (mkRequest POST ["api"; "cart"; "update"] None
                 None None userId productId quantity None).

Definition remove (userId productId : field) : M response :=
  app (mkRequest DELETE ["api"; "cart"; "remove"] None
                 None None userId productId None None).

Definition listWithDetails (userId : string) : M response :=
  app (mkRequest GET ["api"; "cart"; userId] None
                 None None None None None None).

Definition placeOrder (userId : field) (items : option (list item)) : M response :=
  app (mkRequest POST ["api"; "orders"; "place"] None
                 None None userId None None items).

Definition placeSingleOrder (userId productId quantity : field) : M response :=
  app (mkRequest POST ["api"; "single-order"] None
                 None None userId productId quantity None).

Definition listOrders (userId : option string) : M response :=
  app (mkRequest GET ["api"; "orders"] userId
                 None None None None None None).

Definition getOrder (userId : option string) (orderId : string) : M response :=
  app (mkRequest GET ["api"; "orders"; orderId] userId
                 None None None None None None).

End Application.

(** ** Requests in flight

    A handler gives up control at each [await]; every statement runs on
    the connection of its request, outside any transaction, and takes
    effect at once.  A request to POST /api/cart is waiting to start,
    holding the rows of its SELECT (where the [await] hands them over), or
    answered. *)

Inductive task :=
| Received (user_id product_id quantity : field)
| Selected (user_id product_id quantity : Z) (existingCartItems : list cart_row)
| Answered (o : outcome response).

Section Interleaving.

Variable env : environment.

(** One statement of one request of [cart_add]. *)
Definition step_task (t : task) (c : conn) : task * conn :=
  match t with
  | Received user_id product_id quantity =>
      if negb (truthy user_id) || negb (truthy product_id) || negb (truthy quantity)
      then (Answered (Ok (mkResponse 400
              (BError "User ID, Product ID, and Quantity are required" None))), c)
      else
        match awaited env
                (select_cart env (PNum (num user_id)) (PNum (num product_id)))
                c with
        | (Ok existingCartItems, c') =>
            (Selected (num user_id) (num product_id) (num quantity)
                      existingCartItems, c')
        | (Throw err, c') => let (o, c'') := cart_failed err c' in (Answered o, c'')
        end
  | Selected user_id product_id quantity existingCartItems =>
      let (o, c') :=
        try_catch (cart_add_write env user_id product_id
                                  quantity existingCartItems)
                  cart_failed c in
      (Answered o, c')
  | Answered o => (Answered o, c)
  end.

(** The requests in flight and the store they share. *)
Definition advance (st : list task * conn) (i : nat) : list task * conn :=
  match fst st !! i with
  | Some t => let (t', c') := step_task t (snd st) in (<[i := t']> (fst st), c')
  | None => st
  end.

Definition run_schedule (schedule : list nat) (st : list task * conn)
    : list task * conn :=
  fold_left advance schedule st.

End Interleaving.

(** ** A store to run the handlers on *)

(** Quoted strings that are decimal integer literals. *)
Definition decimal_int : string -> option Z := Z_of_string.

Definition noon : datetime := mkDate 2024 3 9 12 0 0.

(** A server that reads decimal literals, a driver with a short message,
    a process in UTC at noon. *)
Definition sample : environment :=
  mkEnvironment decimal_int "the result of query is not a promise"
                (fun d => d) noon.

Definition catalog : list product :=
  [ mkProduct 1 "Laptop" 1000 "laptop.png";
    mkProduct 2 "Mouse" 500 "mouse.png" ].

(** Two products, nothing in any cart, no order yet. *)
Definition shop : conn :=
  mkConn (mkTables catalog [] [] []) None 1 noon.

(** User 1 holds one unit of product 1; user 2 one unit of product 2. *)
Definition shop_with_cart : conn :=
  mkConn (mkTables catalog [mkCart 1 1 1; mkCart 2 2 1] [] []) None 1 noon.

(** Orders 1 and 3 belong to user 1, order 2 to user 2; the catalog price
    of product 1 has changed since order 1 was placed. *)
Definition shop_with_orders : conn :=
  mkConn (mkTables catalog []
            [ mkOrder 1 1 (mkDate 2024 3 1 9 30 0) 1800;
              mkOrder 2 2 (mkDate 2024 3 2 8 0 0) 500;
              mkOrder 3 1 (mkDate 2024 3 5 17 45 10) 500 ]
            [ mkOrderItem 1 1 2 900; mkOrderItem 2 2 1 500;
              mkOrderItem 3 2 1 500 ])
         None 4 noon.

(** ** Quantities the properties speak of *)

(** The rows of a cart table for one (user, product) pair. *)
Definition cart_rows (user_id product_id : Z) (t : tables) : list cart_row :=
  List.filter (fun r => (c_user_id r =? user_id) && (c_product_id r =? product_id))
              (cart t).

(** The cart items an answer carries: those of a cart listing, none
    otherwise. *)
Definition cart_items_of (o : outcome response) : list cart_view :=
  match o with
  | Ok (mkResponse _ (BCart _ cartItems _ _)) => cartItems
  | _ => []
  end.

(** The answer of a handler whose first awaited statement threw. *)
Definition failed (env : environment) (error : string) : outcome response :=
  Ok (mkResponse 500 (BError error (Some (not_a_promise env)))).

(** The integers whose JSON text and parsed number agree. *)
Definition safe_integer (n : Z) : Prop :=
  - 9007199254740991 <= n <= 9007199254740991.

(** A member that is absent, or a safe integer. *)
Definition exact_member (x : field) : Prop :=
  match x with
  | Some n => safe_integer n
  | None => True
  end.

(** * The rest of the application *)

(** ** Invariants of the store *)

(** The key of a cart row. *)
Definition cart_key_of (r : cart_row) : Z * Z := (c_user_id r, c_product_id r).

(** Between two stores, nothing but the cart rows of one pair differs. *)
Definition only_pair_changed (u p : Z) (c c' : conn) : Prop :=
  products (data c') = products (data c)
  /\ orders (data c') = orders (data c)
  /\ order_items (data c') = order_items (data c)
  /\ next_order_id c' = next_order_id c
  /\ forall u' p', (u', p') <> (u, p) ->
       cart_rows u' p' (data c') = cart_rows u' p' (data c).

(** ** Answers of the account and product handlers *)

Inductive document :=
| DError (error : string) (details : option string)
| DProductDeleted (message productId : string)
| DUserCreated (message : string) (userId : Z)
| DSignedIn (message : string) (userId : Z) (firstName lastName email : string).

Record reply := mkReply { code : Z; doc : document }.

(** ** Products

    A product row carries the columns the cart and order queries read;
    the handlers that return or set the other columns are not modelled. *)

Section Products.

Variable env : environment.

Definition set_products (l : list product) (t : tables) : tables :=
  mkTables l (cart t) (orders t) (order_items t).

(** DELETE FROM products WHERE id = ?; the result is [affectedRows]. *)
Definition delete_product (id : sqlparam) : M Z :=
  fun c =>
    (Ok (Z.of_nat (length (List.filter (fun p => col_eq env (p_id p) id)
                                       (products (data c))))),
     with_data (fun t => set_products
        (List.filter (fun p => negb (col_eq env (p_id p) id)) (products t)) t) c).

(** DELETE /api/products/delete/:id *)
Definition products_delete (productId : string) : M reply :=
  try_catch
    (await affectedRows :=
       awaited env (delete_product (PStr productId)) in
     if affectedRows =? 0
     then ret (mkReply 404 (DError "Product not found" None))
     else ret (mkReply 200
                 (DProductDeleted "Product deleted successfully" productId)))
    (fun err => ret (mkReply 500
                       (DError "Failed to delete product" (Some (message err))))).

End Products.

(** POST /api/products/add.  The handler takes no connection: where it
    sends the INSERT, the name [connection] is not bound, and evaluating
    it throws a ReferenceError inside the try block.  The members of the
    body are strings where present ([price] a number), so that the lines
    between the validation and the INSERT, which only build the values of
    the statement, do not throw before it. *)
Definition products_add (name category : option string) (price : field)
    : M reply :=
  try_catch
    (if negb (truthy_opt name) || negb (truthy_opt category) || negb (truthy price)
     then ret (mkReply 400
                 (DError "Missing required fields: name, category, and price are required."
                         None))
     else throw (mkError "connection is not defined"))
    (fun error => ret (mkReply 500
                         (DError "Internal server error" (Some (message error))))).

(** ** Accounts *)

Record user_row := mkUser {
  u_id : Z; u_first_name : string; u_last_name : string; u_email : string;
  u_password_hash : string
}.

(** The users table and its AUTO_INCREMENT counter. *)
Record accounts := mkAccounts { users : list user_row; next_user_id : Z }.

Definition A (T : Type) : Type := accounts -> outcome T * accounts.

Definition ret_a {T} (x : T) : A T := fun a => (Ok x, a).

Definition bind_a {T U} (m : A T) (k : T -> A U) : A U :=
  fun a =>
    match m a with
    | (Ok x, a') => k x a'
    | (Throw e, a') => (Throw e, a')
    end.

Definition try_catch_a {T} (m : A T) (h : error -> A T) : A T :=
  fun a =>
    match m a with
    | (Ok x, a') => (Ok x, a')
    | (Throw e, a') => h e a'
    end.

Notation "'wait' x ':=' m 'in' k" := (bind_a m (fun x => k))
  (at level 10, x name, m at level 100, k at level 200).

Section Accounts.

(** [bcrypt.hash] with the salt it draws, and [bcrypt.compare]. *)
Variable bcrypt_hash : string -> string -> string.
Variable bcrypt_compare : string -> string -> bool.

(** Equality of the email column with a parameter, under the collation of
    the column. *)
Variable email_eq : string -> string -> bool.

Variable env : environment.

(** [await connection.query(...)] on the users table. *)
Definition awaited_a {T} (statement : A T) : A T :=
  fun a => (Throw (mkError (not_a_promise env)), snd (statement a)).

(** SELECT * FROM users WHERE email = ? *)
Definition select_users (email : string) : A (list user_row) :=
  fun a => (Ok (List.filter (fun r => email_eq (u_email r) email) (users a)), a).

(** INSERT INTO users (first_name, last_name, email, password_hash)
    VALUES (?, ?, ?, ?); the result is [insertId]. *)
Definition insert_user (first_name last_name email password_hash : string) : A Z :=
  fun a =>
    let insertId := next_user_id a in
    (Ok insertId,
     mkAccounts (users a ++ [mkUser insertId first_name last_name email
                                    password_hash])
                (insertId + 1)).

Definition account_error (err : error) : A reply :=
  ret_a (mkReply 500 (DError "Database error" (Some (message err)))).

(** POST /api/signup; [salt] is what [bcrypt.hash] draws. *)
Definition signup (salt : string)
    (first_name last_name email password confirm_password : option string)
    : A reply :=
  if negb (truthy_opt first_name) || negb (truthy_opt last_name)
     || negb (truthy_opt email) || negb (truthy_opt password)
     || negb (truthy_opt confirm_password)
  then ret_a (mkReply 400 (DError "All fields are required" None))
  else if negb (String.eqb (default "" password) (default "" confirm_password))
  then ret_a (mkReply 400 (DError "Passwords do not match" None))
  else
    try_catch_a
      (wait results := awaited_a (select_users (default "" email)) in
       match results with
       | _ :: _ => ret_a (mkReply 400 (DError "Email already in use" None))
       | [] =>
           let hashedPassword := bcrypt_hash salt (default "" password) in
           wait insertId :=
             awaited_a (insert_user (default "" first_name)
                          (default "" last_name) (default "" email)
                          hashedPassword) in
           ret_a (mkReply 201 (DUserCreated "User  successfully created" insertId))
       end)
      account_error.

(** POST /api/signin *)
Definition signin (email password : option string) : A reply :=
  if negb (truthy_opt email) || negb (truthy_opt password)
  then ret_a (mkReply 400 (DError "Email and password are required" None))
  else
    try_catch_a
      (wait results := awaited_a (select_users (default "" email)) in
       match results with
       | [] => ret_a (mkReply 400 (DError "Invalid email or password" None))
       | user :: _ =>
           let isMatch := bcrypt_compare (default "" password)
                                         (u_password_hash user) in
           if negb isMatch
           then ret_a (mkReply 400 (DError "Invalid email or password" None))
           else ret_a (mkReply 200
                         (DSignedIn "Sign-in successful" (u_id user)
                            (u_first_name user) (u_last_name user)
                            (u_email user)))
       end)
      account_error.

End Accounts.

(** ** Connections *)

(** [getConnectionWithRetry]: [pool n] is what the n-th call of
    [pool.getConnection] hands to its callback, [None] for an error; after
    an error the function waits 5000 ms and calls itself.  The result is
    the connection the promise resolves to and the time waited. *)
Fixpoint getConnectionWithRetry (fuel : nat) (pool : nat -> option conn)
    (attempt : nat) (waited : Z) : option (conn * Z) :=
  match fuel with
  | O => None
  | S fuel' =>
      match pool attempt with
      | Some connection => Some (connection, waited)
      | None => getConnectionWithRetry fuel' pool (S attempt) (waited + 5000)
      end
  end.

(** ** All registrations *)

(** Every [app.METHOD(path, handler)] of the file, in its order, named by
    the line it stands on. *)
Definition all_registrations : list (verb * list segment * Z) :=
  [ (POST, [Lit "api"; Lit "signup"], 42);
    (POST, [Lit "api"; Lit "signin"], 91);
    (GET, [Lit "api"; Lit "products"], 134);
    (POST, [Lit "api"; Lit "cart"], 171);
    (POST, [Lit "api"; Lit "cart"], 238);
    (GET, [Lit "api"; Lit "cart"; Param "userId"], 337);
    (POST, [Lit "api"; Lit "cart"; Lit "update"], 397);
    (DELETE, [Lit "api"; Lit "cart"; Lit "remove"], 449);
    (POST, [Lit "api"; Lit "cart"; Lit "details"], 488);
    (POST, [Lit "api"; Lit "orders"; Lit "place"], 528);
    (GET, [Lit "api"; Lit "orders"], 590);
    (GET, [Lit "api"; Lit "orders"; Param "orderId"], 674);
    (PUT, [Lit "api"; Lit "cart"; Lit "update-quantity"], 747);
    (GET, [Lit "api"; Lit "orders"; Param "orderId"], 799);
    (GET, [Lit "api"; Lit "orders"], 875);
    (POST, [Lit "api"; Lit "single-order"], 966);
    (POST, [Lit "api"; Lit "products"; Lit "add"], 1062);
    (GET, [Lit "api"; Lit "products"], 1130);
    (DELETE, [Lit "api"; Lit "products"; Lit "delete"; Param "id"], 1258);
    (GET, [Lit "api"; Lit "products"; Param "id"], 1288);
    (PUT, [Lit "api"; Lit "products"; Lit "update"; Param "id"], 1326) ].

Fixpoint route_line_in (rs : list (verb * list segment * Z))
    (v : verb) (path : list string) : option Z :=
  match rs with
  | [] => None
  | (v', pat, line) :: rs' =>
      if verb_eqb v' v && match_path pat path then Some line
      else route_line_in rs' v path
  end.

(** The line of the registration that answers a request. *)
Definition route_line : verb -> list string -> option Z :=
  route_line_in all_registrations.

(** The line a handler of the cart and order paths is registered on. *)
Definition line_of (h : handler) : Z :=
  match h with
  | h_cart_add => 171
  | h_cart_add_enhanced => 238
  | h_cart_get => 337
  | h_cart_update => 397
  | h_cart_remove => 449
  | h_orders_place => 528
  | h_orders_list => 590
  | h_order_get => 674
  | h_cart_update_quantity => 747
  | h_order_get_joined => 799
  | h_orders_list_again => 875
  | h_single_order => 966
  end.

(** * Properties *)

Section Properties.

Variable env : environment.

(** ** The driver *)

(** A handler never sees the result of a statement it awaits: its catch
    block runs on the store the statement left. *)
Lemma awaited_caught {A B} (statement : M A) (k : A -> M B)
    (h : error -> M B) (c : conn) :
  try_catch (bind (awaited env statement) k) h c
  = h (mkError (not_a_promise env)) (snd (statement c)).
Proof. reflexivity. Qed.

Lemma truthy_some (n : Z) : n <> 0 -> truthy (Some n) = true.
Proof. intros H. simpl. apply negb_true_iff, Z.eqb_neq, H. Qed.

Lemma truthy_str_nonempty (s : string) : s <> "" -> truthy_str s = true.
Proof. destruct s; [congruence | reflexivity]. Qed.

(** ** Which registration answers *)

Lemma addOrMerge_routed u p q : addOrMerge env u p q = cart_add env u p q.
Proof. reflexivity. Qed.

Lemma setQuantity_routed u p q : setQuantity env u p q = cart_update env u p q.
Proof. reflexivity. Qed.

Lemma remove_routed u p : remove env u p = cart_remove env u p.
Proof. reflexivity. Qed.

Lemma listWithDetails_routed userId :
  userId <> "" -> listWithDetails env userId = cart_get env userId.
Proof. destruct userId; [congruence | reflexivity]. Qed.

Lemma placeOrder_routed u items : placeOrder env u items = orders_place env u items.
Proof. reflexivity. Qed.

Lemma placeSingleOrder_routed u p q :
  placeSingleOrder env u p q = single_order env u p q.
Proof. reflexivity. Qed.

Lemma listOrders_routed u : listOrders env u = orders_list env u.
Proof. reflexivity. Qed.

Lemma getOrder_routed u orderId :
  orderId <> "" -> getOrder env u orderId = order_get env orderId u.
Proof. destruct orderId; [congruence | reflexivity]. Qed.

(** ** The handlers, run *)

Lemma cart_add_run (u p q : Z) (c : conn) :
  u <> 0 -> p <> 0 -> q <> 0 ->
  cart_add env (Some u) (Some p) (Some q) c = (failed env "Failed to manage cart", c).
Proof.
  intros Hu Hp Hq. unfold cart_add. rewrite !truthy_some by assumption.
  cbn [negb orb]. rewrite awaited_caught. reflexivity.
Qed.

Lemma cart_get_run (userId : string) (c : conn) :
  userId <> "" -> cart_get env userId c = (failed env "Error fetching cart", c).
Proof.
  intros H. unfold cart_get. rewrite truthy_str_nonempty by exact H.
  cbn [negb]. rewrite awaited_caught. reflexivity.
Qed.

Lemma orders_place_run (u : Z) (items : list item) (c : conn) :
  u <> 0 -> items <> [] ->
  orders_place env (Some u) (Some items) c
  = (Throw (mkError (not_a_promise env)),
     mkConn (data c) None (next_order_id c) (now c)).
Proof.
  intros Hu Hi. unfold orders_place. rewrite truthy_some by exact Hu.
  destruct items as [|i items]; [congruence|]. cbn [negb orb no_items length Nat.eqb].
  rewrite awaited_caught. reflexivity.
Qed.

Lemma single_order_run (u p q : Z) (c : conn) :
  u <> 0 -> p <> 0 -> q <> 0 ->
  single_order env (Some u) (Some p) (Some q) c
  = (failed env "Failed to create order",
     mkConn (data c) (Some (data c)) (next_order_id c) (now c)).
Proof.
  intros Hu Hp Hq. unfold single_order. rewrite !truthy_some by assumption.
  cbn [negb orb]. rewrite awaited_caught. reflexivity.
Qed.

Lemma orders_list_run (userId : string) (c : conn) :
  userId <> "" ->
  orders_list env (Some userId) c = (failed env "Failed to retrieve orders", c).
Proof.
  intros H. unfold orders_list. cbn [truthy_opt].
  rewrite truthy_str_nonempty by exact H. cbn [negb].
  rewrite awaited_caught. reflexivity.
Qed.

Lemma order_get_run (userId orderId : string) (c : conn) :
  userId <> "" -> orderId <> "" ->
  order_get env orderId (Some userId) c
  = (failed env "Failed to retrieve order details", c).
Proof.
  intros Hu Ho. unfold order_get. cbn [truthy_opt].
  rewrite !truthy_str_nonempty by assumption. cbn [negb orb].
  rewrite awaited_caught. reflexivity.
Qed.

Lemma cart_remove_run (u p : Z) (c : conn) :
  u <> 0 -> p <> 0 ->
  cart_remove env (Some u) (Some p) c
  = (failed env "Database error",
     with_data (fun t => set_cart
        (List.filter (fun r => negb (cart_key env (PNum u) (PNum p) r)) (cart t)) t)
       c).
Proof.
  intros Hu Hp. unfold cart_remove. rewrite !truthy_some by assumption.
  cbn [negb orb]. rewrite awaited_caught. reflexivity.
Qed.

Lemma cart_update_delete_run (u p q : Z) (c : conn) :
  u <> 0 -> p <> 0 -> q <= 0 ->
  cart_update env (Some u) (Some p) (Some q) c
  = (failed env "Database error",
     with_data (fun t => set_cart
        (List.filter (fun r => negb (cart_key env (PNum u) (PNum p) r)) (cart t)) t)
       c).
Proof.
  intros Hu Hp Hq. unfold cart_update. rewrite !truthy_some by assumption.
  cbn [negb orb le_zero]. apply Z.leb_le in Hq. rewrite Hq.
  rewrite awaited_caught. reflexivity.
Qed.

Lemma cart_update_upsert_run (u p q : Z) (c : conn) :
  u <> 0 -> p <> 0 -> 0 < q ->
  cart_update env (Some u) (Some p) (Some q) c
  = (failed env "Database error", snd (upsert_cart env u p q q c)).
Proof.
  intros Hu Hp Hq. unfold cart_update. rewrite !truthy_some by assumption.
  cbn [negb orb le_zero]. assert (E : (q <=? 0) = false) by (apply Z.leb_gt; lia).
  rewrite E. rewrite awaited_caught. reflexivity.
Qed.

Lemma cart_update_quantity_run (u p q : Z) (c : conn) :
  u <> 0 -> p <> 0 -> 1 <= q ->
  cart_update_quantity env (Some u) (Some p) (Some q) c
  = (failed env "Database error",
     with_data (fun t => set_cart
        (map (set_quantity env q (PNum u) (PNum p)) (cart t)) t) c).
Proof.
  intros Hu Hp Hq. unfold cart_update_quantity. rewrite !truthy_some by assumption.
  cbn [negb orb parseInt nan_or_lt1].
  assert (E : (q <? 1) = false) by (apply Z.ltb_ge; lia).
  rewrite E. rewrite awaited_caught. reflexivity.
Qed.

(** ** Rows of the cart *)

Lemma filter_none {A} (f : A -> bool) (l : list A) :
  List.filter f (List.filter (fun x => negb (f x)) l) = [].
Proof.
  induction l as [|x l IH]; simpl; [reflexivity|].
  destruct (f x) eqn:E; simpl; [|rewrite E]; exact IH.
Qed.

Lemma cart_key_num (u p : Z) (r : cart_row) :
  cart_key env (PNum u) (PNum p) r
  = (c_user_id r =? u) && (c_product_id r =? p).
Proof. reflexivity. Qed.

Lemma existsb_filter_nil {A} (f : A -> bool) (l : list A) :
  existsb f l = false <-> List.filter f l = [].
Proof.
  induction l as [|x l IH]; simpl; [tauto|].
  destruct (f x); simpl; [split; discriminate | exact IH].
Qed.

Lemma duplicate_key_rows (u p : Z) (t : tables) :
  cart_rows u p t = [] -> duplicate_key u p (cart t) = false.
Proof. intros H. apply existsb_filter_nil. exact H. Qed.

Lemma cart_rows_insert (u p q : Z) (t : tables) :
  cart_rows u p (set_cart (cart t ++ [mkCart u p q]) t)
  = (cart_rows u p t ++ [mkCart u p q])%list.
Proof.
  unfold cart_rows. cbn [cart set_cart]. rewrite List.filter_app. cbn.
  rewrite !Z.eqb_refl. reflexivity.
Qed.

Lemma cart_rows_update (u p q : Z) (t : tables) :
  cart_rows u p (set_cart (map (set_quantity env q (PNum u) (PNum p)) (cart t)) t)
  = map (fun r => mkCart (c_user_id r) (c_product_id r) q) (cart_rows u p t).
Proof.
  unfold cart_rows. cbn [cart set_cart].
  induction (cart t) as [|r l IH]; [reflexivity|].
  cbn [map]. unfold set_quantity at 1. rewrite cart_key_num.
  destruct ((c_user_id r =? u) && (c_product_id r =? p)) eqn:E;
    cbn [List.filter c_user_id c_product_id]; rewrite E.
  - cbn [map]. f_equal. exact IH.
  - exact IH.
Qed.

Lemma update_nothing (u p q : Z) (l : list cart_row) :
  List.filter (fun r => (c_user_id r =? u) && (c_product_id r =? p)) l = [] ->
  map (set_quantity env q (PNum u) (PNum p)) l = l.
Proof.
  induction l as [|r l IH]; [reflexivity|]. cbn [map List.filter].
  unfold set_quantity at 1. rewrite cart_key_num.
  destruct ((c_user_id r =? u) && (c_product_id r =? p)); [discriminate|].
  intros H. f_equal. apply IH, H.
Qed.

Lemma delete_cart_rows (u p : Z) (t : tables) :
  cart_rows u p
    (set_cart (List.filter (fun r => negb (cart_key env (PNum u) (PNum p) r))
                           (cart t)) t) = [].
Proof.
  unfold cart_rows. cbn [cart set_cart].
  apply (filter_none (fun r => (c_user_id r =? u) && (c_product_id r =? p))).
Qed.

Lemma only_pair_same (u p : Z) (c : conn) : only_pair_changed u p c c.
Proof. repeat split. Qed.

Lemma cart_rows_set_cart (u p : Z) (l : list cart_row) (t : tables) :
  cart_rows u p (set_cart l t)
  = List.filter (fun r => (c_user_id r =? u) && (c_product_id r =? p)) l.
Proof. reflexivity. Qed.

Lemma pair_neq (u p u' p' : Z) :
  (u', p') <> (u, p) -> (u =? u') && (p =? p') = false.
Proof.
  intros H. destruct (Z.eqb_spec u u'), (Z.eqb_spec p p'); try reflexivity.
  subst. congruence.
Qed.

Lemma only_pair_insert (u p q : Z) (c : conn) :
  only_pair_changed u p c
    (with_data (fun t => set_cart (cart t ++ [mkCart u p q]) t) c).
Proof.
  repeat split. intros u' p' Hne. cbn [data with_data].
  rewrite cart_rows_set_cart, List.filter_app. cbn [List.filter c_user_id c_product_id].
  rewrite (pair_neq _ _ _ _ Hne). apply app_nil_r.
Qed.

Lemma filter_other_update (u p q u' p' : Z) (l : list cart_row) :
  (u', p') <> (u, p) ->
  List.filter (fun r => (c_user_id r =? u') && (c_product_id r =? p'))
              (map (set_quantity env q (PNum u) (PNum p)) l)
  = List.filter (fun r => (c_user_id r =? u') && (c_product_id r =? p')) l.
Proof.
  intros Hne. induction l as [|r l IH]; [reflexivity|]. cbn [map List.filter].
  rewrite IH. unfold set_quantity. rewrite cart_key_num.
  destruct (Z.eqb_spec (c_user_id r) u) as [Eu|]; [|reflexivity].
  destruct (Z.eqb_spec (c_product_id r) p) as [Ep|]; [|reflexivity].
  cbn [andb c_user_id c_product_id]. rewrite Eu, Ep.
  destruct (Z.eqb_spec u u'), (Z.eqb_spec p p'); try reflexivity.
  subst. congruence.
Qed.

Lemma only_pair_update (u p q : Z) (c : conn) :
  only_pair_changed u p c
    (with_data (fun t => set_cart
       (map (set_quantity env q (PNum u) (PNum p)) (cart t)) t) c).
Proof.
  repeat split. intros u' p' Hne. cbn [data with_data].
  rewrite cart_rows_set_cart. apply filter_other_update, Hne.
Qed.

Lemma only_pair_delete (u p : Z) (c : conn) :
  only_pair_changed u p c
    (with_data (fun t => set_cart
       (List.filter (fun r => negb (cart_key env (PNum u) (PNum p) r))
                    (cart t)) t) c).
Proof.
  repeat split. intros u' p' Hne. cbn [data with_data].
  rewrite cart_rows_set_cart. unfold cart_rows.
  induction (cart (data c)) as [|r l IH]; [reflexivity|]. cbn [List.filter].
  rewrite cart_key_num.
  destruct (Z.eqb_spec (c_user_id r) u) as [Eu|];
    [destruct (Z.eqb_spec (c_product_id r) p) as [Ep|]|];
    cbn [andb negb List.filter]; try (rewrite IH; reflexivity).
  rewrite Eu, Ep.
  destruct (Z.eqb_spec u u'), (Z.eqb_spec p p'); try exact IH.
  subst. congruence.
Qed.

Lemma keys_set_quantity (q : Z) (a b : sqlparam) (l : list cart_row) :
  map cart_key_of (map (set_quantity env q a b) l) = map cart_key_of l.
Proof.
  induction l as [|r l IH]; [reflexivity|]. cbn [map]. rewrite IH. f_equal.
  unfold set_quantity. destruct (cart_key env a b r); reflexivity.
Qed.

Lemma duplicate_key_found (u p : Z) (t : tables) (r : cart_row) (rest : list cart_row) :
  cart_rows u p t = r :: rest -> duplicate_key u p (cart t) = true.
Proof.
  intros H. unfold duplicate_key.
  destruct (existsb _ (cart t)) eqn:E; [reflexivity|].
  apply existsb_filter_nil in E. unfold cart_rows in H. congruence.
Qed.

Lemma set_quantity_twice (q : Z) (a b : sqlparam) (l : list cart_row) :
  map (set_quantity env q a b) (map (set_quantity env q a b) l)
  = map (set_quantity env q a b) l.
Proof.
  rewrite map_map. apply map_ext. intros r. unfold set_quantity.
  destruct (cart_key env a b r) eqn:E; [|rewrite E; reflexivity].
  unfold cart_key in *. cbn [c_user_id c_product_id]. rewrite E. reflexivity.
Qed.

Lemma filter_negb_twice {T} (f : T -> bool) (l : list T) :
  List.filter (fun x => negb (f x)) (List.filter (fun x => negb (f x)) l)
  = List.filter (fun x => negb (f x)) l.
Proof.
  induction l as [|x l IH]; [reflexivity|]. cbn [List.filter].
  destruct (f x) eqn:E; cbn [negb List.filter]; [exact IH|].
  rewrite E. cbn [negb]. rewrite IH. reflexivity.
Qed.

Lemma upsert_inserts (u p q : Z) (c : conn) :
  cart_rows u p (data c) = [] ->
  snd (upsert_cart env u p q q c)
  = with_data (fun t => set_cart (cart t ++ [mkCart u p q]) t) c.
Proof.
  intros H. unfold upsert_cart. rewrite (duplicate_key_rows u p (data c) H).
  reflexivity.
Qed.

Lemma upsert_updates (u p q : Z) (c : conn) (r : cart_row) (rest : list cart_row) :
  cart_rows u p (data c) = r :: rest ->
  snd (upsert_cart env u p q q c)
  = with_data (fun t => set_cart
       (map (set_quantity env q (PNum u) (PNum p)) (cart t)) t) c.
Proof.
  intros H. unfold upsert_cart.
  rewrite (duplicate_key_found u p (data c) r rest H). reflexivity.
Qed.

(** ** Checkout *)

(** C2: for every user and every non-empty item list, the promise of the
    [placeOrder] handler rejects with the error of the awaited
    [beginTransaction], after START TRANSACTION and the ROLLBACK of its
    catch block: no response is sent, no order and no order line is
    inserted, the cart of the user is not emptied, and no transaction is
    left open. *)
Theorem placeOrder_stores_nothing (c : conn) (u : Z) (items : list item) :
  u <> 0 -> items <> [] ->
  exists c',
    placeOrder env (Some u) (Some items) c
    = (Throw (mkError (not_a_promise env)), c')
    /\ data c' = data c
    /\ next_order_id c' = next_order_id c
    /\ saved c' = None.
Proof.
  intros Hu Hi. rewrite placeOrder_routed, orders_place_run by assumption.
  eexists. repeat split.
Qed.

(** C3, as the code has it: when the product id is not in the catalog,
    [placeSingleOrder] is answered 500 "Failed to create order" if the
    three members are present and not zero and 400 otherwise, never 404;
    the orders and the order lines are what they were. *)
Theorem placeSingleOrder_unknown_product (c : conn)
    (userId productId quantity : field) :
  (forall prod, In prod (products (data c)) -> p_id prod <> num productId) ->
  exists r c',
    placeSingleOrder env userId productId quantity c = (Ok r, c')
    /\ status r = (if truthy userId && truthy productId && truthy quantity
                   then 500 else 400)
    /\ (status r = 500 ->
        exists details, json r = BError "Failed to create order" details)
    /\ orders (data c') = orders (data c)
    /\ order_items (data c') = order_items (data c).
Proof.
  intros _. rewrite placeSingleOrder_routed. unfold single_order.
  destruct (truthy userId), (truthy productId), (truthy quantity);
    cbn [negb orb andb];
    try solve [eexists _, c; repeat apply conj;
               first [reflexivity | discriminate]].
  rewrite awaited_caught. eexists _, _. repeat apply conj; try reflexivity.
  intros _. eexists. reflexivity.
Qed.

(** ** Cart *)

(** C4: whatever the quantity and the product, as long as the three
    members are present and not zero, POST /api/cart is answered by its
    first registration with 500 "Failed to manage cart", and nothing is
    written; a quantity that is not positive gets its 400 only from the
    second registration, which no request reaches. *)
Theorem addOrMerge_skips_validation (c : conn) (u p q : Z) :
  u <> 0 -> p <> 0 -> q <> 0 ->
  route POST ["api"; "cart"] = Some h_cart_add
  /\ addOrMerge env (Some u) (Some p) (Some q) c
     = (failed env "Failed to manage cart", c)
  /\ (q <= 0 ->
      cart_add_enhanced env (Some u) (Some p) (Some q) c
      = (Ok (mkResponse 400 (BError "Quantity must be a positive number" None)),
         c)).
Proof.
  intros Hu Hp Hq. split; [reflexivity|]. split.
  - rewrite addOrMerge_routed. apply cart_add_run; assumption.
  - intros Hle. unfold cart_add_enhanced. rewrite !truthy_some by assumption.
    cbn [negb orb parseInt nan_or_le0]. apply Z.leb_le in Hle. rewrite Hle.
    reflexivity.
Qed.

(** C5, as the code has it: [setQuantity] with a positive quantity on a
    pair without a cart row does not report not-found and creates the row
    with that quantity; PUT /api/cart/update-quantity creates no row. *)
Theorem setQuantity_upserts (c : conn) (u p q : Z) :
  u <> 0 -> p <> 0 -> 0 < q ->
  safe_integer u -> safe_integer p -> safe_integer q ->
  cart_rows u p (data c) = [] ->
  (exists r c',
     setQuantity env (Some u) (Some p) (Some q) c = (Ok r, c')
     /\ status r <> 404
     /\ cart_rows u p (data c') = [mkCart u p q])
  /\ cart (data (snd (cart_update_quantity env (Some u) (Some p) (Some q) c)))
     = cart (data c).
Proof.
  intros Hu Hp Hq _ _ _ Hrows. split.
  - rewrite setQuantity_routed, cart_update_upsert_run by assumption.
    rewrite (upsert_inserts u p q c Hrows).
    eexists _, _. split; [reflexivity|]. split; [discriminate|].
    cbn [data with_data]. rewrite cart_rows_insert, Hrows. reflexivity.
  - rewrite cart_update_quantity_run by (assumption || lia).
    cbn [snd data with_data cart set_cart]. apply update_nothing. exact Hrows.
Qed.

(** C7: [addOrMerge(u, p, q1)] and then [addOrMerge(u, p, q2)] are both
    answered 500 "Failed to manage cart", and the store after them is the
    store before them: no quantity is added and no row is created. *)
Theorem addOrMerge_twice_stores_nothing (c : conn) (u p q1 q2 : Z) :
  u <> 0 -> p <> 0 -> q1 <> 0 -> q2 <> 0 ->
  let first := addOrMerge env (Some u) (Some p) (Some q1) c in
  let second := addOrMerge env (Some u) (Some p) (Some q2) (snd first) in
  fst first = failed env "Failed to manage cart"
  /\ fst second = failed env "Failed to manage cart"
  /\ snd second = c.
Proof.
  intros Hu Hp H1 H2. cbv zeta.
  rewrite !addOrMerge_routed, (cart_add_run u p q1) by assumption.
  cbn [fst snd]. rewrite (cart_add_run u p q2) by assumption.
  repeat split.
Qed.

(** C8: [setQuantity(u, p, q)] with q ≤ 0 leaves the store exactly as
    [remove(u, p)] does, and is answered as it is: no row for (u, p) is
    left, and what the listing of the cart of u answers holds no entry for
    product p. *)
Theorem setQuantity_zero_is_remove (c : conn) (u p q : Z) (userId : string) :
  u <> 0 -> p <> 0 -> q <= 0 ->
  safe_integer u -> safe_integer p ->
  userId <> "" -> sql_int env userId = Some u ->
  let c1 := snd (setQuantity env (Some u) (Some p) (Some q) c) in
  let c2 := snd (remove env (Some u) (Some p) c) in
  c1 = c2
  /\ fst (setQuantity env (Some u) (Some p) (Some q) c)
     = fst (remove env (Some u) (Some p) c)
  /\ cart_rows u p (data c1) = []
  /\ forall item,
       In item (cart_items_of (fst (listWithDetails env userId c1))) ->
       cv_product_id item <> p.
Proof.
  intros Hu Hp Hq _ _ Hne _. cbv zeta.
  rewrite setQuantity_routed, remove_routed.
  rewrite cart_update_delete_run, cart_remove_run by assumption.
  cbn [fst snd]. repeat split.
  - cbn [data with_data]. apply delete_cart_rows.
  - rewrite listWithDetails_routed, cart_get_run by exact Hne.
    intros item [].
Qed.

(** ** Orders *)

(** C9: for every user id and every order id, raw or with its ORD-
    prefix, [getOrder] is answered 500 "Failed to retrieve order
    details": the owner does not get the order, and another user or an
    unknown id does not get not-found. *)
Theorem getOrder_always_fails (c : conn) (userId orderId : string) :
  userId <> "" -> orderId <> "" ->
  getOrder env (Some userId) orderId c
  = (failed env "Failed to retrieve order details", c).
Proof.
  intros Hu Ho. rewrite getOrder_routed by exact Ho.
  apply order_get_run; assumption.
Qed.

(** C10: for every user id, [listOrders] is answered 500 "Failed to
    retrieve orders", whether the user has orders or none. *)
Theorem listOrders_always_fails (c : conn) (userId : string) :
  userId <> "" ->
  listOrders env (Some userId) c = (failed env "Failed to retrieve orders", c).
Proof.
  intros H. rewrite listOrders_routed. apply orders_list_run, H.
Qed.

(** ** Requests in flight *)

Lemma step_received (u p : Z) (c : conn) :
  u <> 0 -> p <> 0 ->
  step_task env (Received (Some u) (Some p) (Some 1)) c
  = (Answered (failed env "Failed to manage cart"), c).
Proof.
  intros Hu Hp. unfold step_task. rewrite !truthy_some by (assumption || lia).
  reflexivity.
Qed.

Lemma advance_keeps (u p : Z) (c : conn) (tasks : list task) (i : nat) :
  u <> 0 -> p <> 0 ->
  Forall (fun t => t = Received (Some u) (Some p) (Some 1)
                   \/ t = Answered (failed env "Failed to manage cart")) tasks ->
  exists tasks',
    advance env (tasks, c) i = (tasks', c)
    /\ Forall (fun t => t = Received (Some u) (Some p) (Some 1)
                        \/ t = Answered (failed env "Failed to manage cart"))
              tasks'.
Proof.
  intros Hu Hp Hall. unfold advance. cbn [fst snd].
  destruct (tasks !! i) as [t|] eqn:E; [|exists tasks; split; [reflexivity|exact Hall]].
  assert (Ht : t = Received (Some u) (Some p) (Some 1)
               \/ t = Answered (failed env "Failed to manage cart")).
  { rewrite Forall_forall in Hall. apply Hall. eapply list_elem_of_lookup_2, E. }
  destruct Ht as [-> | ->].
  - rewrite step_received by assumption. eexists. split; [reflexivity|].
    apply Forall_insert; [exact Hall | right; reflexivity].
  - cbn [step_task]. eexists. split; [reflexivity|].
    apply Forall_insert; [exact Hall | right; reflexivity].
Qed.

Lemma run_in_turn (u p : Z) (c : conn) (m : nat) :
  u <> 0 -> p <> 0 ->
  forall k : nat,
    run_schedule env (seq k m)
      ((replicate k (Answered (failed env "Failed to manage cart"))
        ++ replicate m (Received (Some u) (Some p) (Some 1)))%list, c)
    = (replicate (k + m) (Answered (failed env "Failed to manage cart")), c).
Proof.
  intros Hu Hp. induction m as [|m IH]; intros k.
  - cbn. rewrite app_nil_r, Nat.add_0_r. reflexivity.
  - cbn [seq replicate run_schedule fold_left]. unfold advance at 2. cbn [fst snd].
    rewrite lookup_app_r by (rewrite length_replicate; lia).
    rewrite length_replicate, Nat.sub_diag. cbn [lookup list_lookup].
    rewrite step_received by assumption.
    rewrite insert_app_r_alt by (rewrite length_replicate; lia).
    rewrite length_replicate, Nat.sub_diag. cbn [insert list_insert].
    specialize (IH (S k)). unfold run_schedule in IH.
    rewrite replicate_S_end, <- app_assoc in IH.
    rewrite cons_middle, IH. f_equal. f_equal. lia.
Qed.

(** C6: n calls of [addOrMerge(u, p, 1)] store nothing, however their
    statements interleave: every step leaves the store as it was and every
    call that has run is answered 500 "Failed to manage cart"; run one
    after another, all n are answered so. *)
Theorem addOrMerge_calls_store_nothing (c : conn) (u p : Z) (n : nat)
    (schedule : list nat) :
  u <> 0 -> p <> 0 ->
  let request := Received (Some u) (Some p) (Some 1) in
  let answer := Answered (failed env "Failed to manage cart") in
  (exists tasks,
     run_schedule env schedule (replicate n request, c) = (tasks, c)
     /\ Forall (fun t => t = request \/ t = answer) tasks)
  /\ run_schedule env (seq 0 n) (replicate n request, c)
     = (replicate n answer, c).
Proof.
  intros Hu Hp. cbv zeta. split.
  - assert (Hstart : Forall (fun t => t = Received (Some u) (Some p) (Some 1)
                         \/ t = Answered (failed env "Failed to manage cart"))
                       (replicate n (Received (Some u) (Some p) (Some 1)))).
    { apply Forall_replicate. left. reflexivity. }
    revert Hstart. generalize (replicate n (Received (Some u) (Some p) (Some 1))).
    induction schedule as [|i schedule IH]; intros tasks Hall.
    + exists tasks. split; [reflexivity | exact Hall].
    + cbn [run_schedule fold_left].
      destruct (advance_keeps u p c tasks i Hu Hp Hall) as (tasks' & -> & Hall').
      apply IH, Hall'.
  - apply (run_in_turn u p c n Hu Hp 0%nat).
Qed.
(** * The rest of the application *)

(** ** Cart *)

(** X1: for members that are absent or safe integers, the four handlers
    that write the cart ([addOrMerge], [setQuantity], [remove] and PUT
    update-quantity) leave the products, the orders, the order lines and
    the cart rows of every other (user, product) pair as they were;
    [addOrMerge] leaves the whole store as it was. *)
Theorem cart_writers_frame (c : conn) (u p q : field) :
  exact_member u -> exact_member p -> exact_member q ->
  snd (addOrMerge env u p q c) = c
  /\ only_pair_changed (num u) (num p) c (snd (setQuantity env u p q c))
  /\ only_pair_changed (num u) (num p) c (snd (remove env u p c))
  /\ only_pair_changed (num u) (num p) c
       (snd (cart_update_quantity env u p q c)).
Proof.
  intros _ _ _. rewrite addOrMerge_routed, setQuantity_routed, remove_routed.
  refine (conj _ (conj _ (conj _ _))).
  - unfold cart_add.
    destruct (negb (truthy u) || negb (truthy p) || negb (truthy q));
      [reflexivity|].
    rewrite awaited_caught. reflexivity.
  - unfold cart_update.
    destruct (negb (truthy u) || negb (truthy p) || _); [apply only_pair_same|].
    destruct (le_zero q); rewrite awaited_caught; cbn [snd database_error ret].
    + apply only_pair_delete.
    + unfold upsert_cart.
      destruct (duplicate_key (num u) (num p) (cart (data c))); cbn [snd];
        [apply only_pair_update | apply only_pair_insert].
  - unfold cart_remove.
    destruct (negb (truthy u) || negb (truthy p)); [apply only_pair_same|].
    rewrite awaited_caught. apply only_pair_delete.
  - unfold cart_update_quantity.
    destruct (negb (truthy u) || negb (truthy p) || _); [apply only_pair_same|].
    destruct (nan_or_lt1 (parseInt q)); [apply only_pair_same|].
    rewrite awaited_caught. apply only_pair_update.
Qed.

(** X3: for every user id, GET /api/cart/:userId is answered 500 "Error
    fetching cart" with the message of the driver and shows no cart item;
    the store is as it was. *)
Theorem listWithDetails_always_fails (c : conn) (userId : string) :
  userId <> "" ->
  listWithDetails env userId c = (failed env "Error fetching cart", c).
Proof.
  intros H. rewrite listWithDetails_routed by exact H. apply cart_get_run, H.
Qed.

(** X6: on a pair that has its row, [setQuantity] with a positive
    quantity sets the quantity of the row to exactly that value, whatever
    it was, and is answered 500 "Database error"; a second identical call
    is answered the same and changes nothing. *)
Theorem setQuantity_sets_quantity (c : conn) (u p q q0 : Z) :
  u <> 0 -> p <> 0 -> 0 < q ->
  safe_integer u -> safe_integer p -> safe_integer q ->
  cart_rows u p (data c) = [mkCart u p q0] ->
  exists c',
    setQuantity env (Some u) (Some p) (Some q) c
    = (failed env "Database error", c')
    /\ cart_rows u p (data c') = [mkCart u p q]
    /\ setQuantity env (Some u) (Some p) (Some q) c'
       = (failed env "Database error", c').
Proof.
  intros Hu Hp Hq _ _ _ Hrows.
  rewrite setQuantity_routed, cart_update_upsert_run by assumption.
  rewrite (upsert_updates u p q c _ _ Hrows).
  set (c' := with_data _ c).
  assert (Hrows' : cart_rows u p (data c') = [mkCart u p q]).
  { unfold c'. cbn [data with_data]. rewrite cart_rows_update, Hrows.
    reflexivity. }
  exists c'. split; [reflexivity|]. split; [exact Hrows'|].
  rewrite cart_update_upsert_run by assumption.
  rewrite (upsert_updates u p q c' _ _ Hrows'). f_equal.
  unfold c', with_data. cbn [data set_cart cart products orders order_items
                             saved next_order_id now].
  rewrite (set_quantity_twice q (PNum u) (PNum p)). reflexivity.
Qed.

(** X7: [remove] deletes the rows of the pair and is answered 500
    "Database error", whether there were rows or none: it reports neither
    the number of deleted rows nor "Item not found in cart"; a second
    [remove] is answered the same and changes nothing. *)
Theorem remove_deletes_rows (c : conn) (u p : Z) :
  u <> 0 -> p <> 0 -> safe_integer u -> safe_integer p ->
  exists c',
    remove env (Some u) (Some p) c = (failed env "Database error", c')
    /\ cart_rows u p (data c') = []
    /\ remove env (Some u) (Some p) c' = (failed env "Database error", c').
Proof.
  intros Hu Hp _ _. rewrite remove_routed, cart_remove_run by assumption.
  eexists. split; [reflexivity|]. split.
  - cbn [data with_data]. apply delete_cart_rows.
  - rewrite cart_remove_run by assumption. f_equal.
    unfold with_data. cbn [data set_cart cart products orders order_items
                           saved next_order_id now].
    rewrite (filter_negb_twice (cart_key env (PNum u) (PNum p))). reflexivity.
Qed.

(** X8: PUT /api/cart/update-quantity never creates or deletes a cart
    row; with the ids present, a quantity below 1 is answered 400 and
    changes nothing; on a pair that has its row, a quantity of at least 1
    becomes the quantity of the row, and the answer is 500 "Database
    error". *)
Theorem update_quantity_keeps_rows (c : conn) (u p q : field) :
  map cart_key_of (cart (data (snd (cart_update_quantity env u p q c))))
  = map cart_key_of (cart (data c))
  /\ (forall n, q = Some n -> n < 1 -> truthy u = true -> truthy p = true ->
      cart_update_quantity env u p q c
      = (Ok (mkResponse 400 (BError "Quantity must be a positive number" None)), c))
  /\ (forall n q0, q = Some n -> 1 <= n -> truthy u = true -> truthy p = true ->
      exact_member u -> exact_member p -> safe_integer n ->
      cart_rows (num u) (num p) (data c) = [mkCart (num u) (num p) q0] ->
      exists c',
        cart_update_quantity env u p q c = (failed env "Database error", c')
        /\ cart_rows (num u) (num p) (data c') = [mkCart (num u) (num p) n]).
Proof.
  refine (conj _ (conj _ _)).
  - unfold cart_update_quantity.
    destruct (negb (truthy u) || negb (truthy p) || _); [reflexivity|].
    destruct (nan_or_lt1 (parseInt q)); [reflexivity|].
    rewrite awaited_caught. cbn. apply keys_set_quantity.
  - intros n -> Hn Hu Hp. unfold cart_update_quantity.
    rewrite Hu, Hp. cbn [negb orb parseInt nan_or_lt1].
    assert (Hlt : (n <? 1) = true) by (apply Z.ltb_lt; exact Hn).
    rewrite Hlt. reflexivity.
  - intros n q0 -> Hn Hu Hp _ _ _ Hrows. unfold cart_update_quantity.
    rewrite Hu, Hp. cbn [negb orb parseInt nan_or_lt1 num].
    assert (Hlt : (n <? 1) = false) by (apply Z.ltb_ge; exact Hn).
    rewrite Hlt, awaited_caught. eexists. split; [reflexivity|].
    cbn [snd update_cart data with_data]. rewrite cart_rows_update, Hrows.
    reflexivity.
Qed.

(** X24: the handler of the second POST /api/cart registration, for ids
    and a quantity that are present and not zero: a quantity that is not
    positive is answered 400 and changes nothing; with a positive quantity
    the promise of the handler rejects, after START TRANSACTION and the
    ROLLBACK of its catch block, and the tables are as they were. *)
Theorem cart_add_enhanced_validates (c : conn) (u p q : Z) :
  u <> 0 -> p <> 0 -> q <> 0 ->
  (q <= 0 ->
   cart_add_enhanced env (Some u) (Some p) (Some q) c
   = (Ok (mkResponse 400 (BError "Quantity must be a positive number" None)), c))
  /\ (0 < q ->
      cart_add_enhanced env (Some u) (Some p) (Some q) c
      = (Throw (mkError (not_a_promise env)),
         mkConn (data c) None (next_order_id c) (now c))).
Proof.
  intros Hu Hp Hq. unfold cart_add_enhanced. rewrite !truthy_some by assumption.
  cbn [negb orb parseInt nan_or_le0]. split; intros H.
  - apply Z.leb_le in H. rewrite H. reflexivity.
  - assert (E : (q <=? 0) = false) by (apply Z.leb_gt; exact H).
    rewrite E, awaited_caught. reflexivity.
Qed.

(** ** Checkout *)

(** X10: whatever the members of the request, neither checkout stores
    anything: the tables and the order id counter after [placeOrder] and
    after [placeSingleOrder] are those before it.  [placeOrder] is
    answered 400 or its promise rejects; [placeSingleOrder] is answered
    400 or 500. *)
Theorem checkout_stores_nothing (c : conn) (userId productId quantity : field)
    (items : option (list item)) :
  (let run := placeOrder env userId items c in
   data (snd run) = data c
   /\ next_order_id (snd run) = next_order_id c
   /\ (fst run = Ok (mkResponse 400 (BError "User ID and items are required" None))
       \/ fst run = Throw (mkError (not_a_promise env))))
  /\ (let run := placeSingleOrder env userId productId quantity c in
      data (snd run) = data c
      /\ next_order_id (snd run) = next_order_id c
      /\ (fst run = Ok (mkResponse 400
                          (BError "Invalid order data"
                             (Some "User ID, Product ID, and Quantity are required")))
          \/ fst run = failed env "Failed to create order")).
Proof.
  cbv zeta. rewrite placeOrder_routed, placeSingleOrder_routed. split.
  - unfold orders_place.
    destruct (negb (truthy userId) || no_items items); [auto|].
    rewrite awaited_caught. auto.
  - unfold single_order.
    destruct (negb (truthy userId) || negb (truthy productId)
              || negb (truthy quantity)); [auto|].
    rewrite awaited_caught. auto.
Qed.

(** X11: [placeSingleOrder] sends START TRANSACTION and neither COMMIT
    nor ROLLBACK: it leaves a transaction open on the connection, its
    snapshot the tables of that moment.  A [placeOrder] that follows on
    the connection ends it, its own START TRANSACTION followed by the
    ROLLBACK of its catch block, and the tables are still as they were. *)
Theorem transaction_left_open (c : conn) (u p q : Z) (items : list item) :
  u <> 0 -> p <> 0 -> q <> 0 -> items <> [] ->
  let c1 := snd (placeSingleOrder env (Some u) (Some p) (Some q) c) in
  let c2 := snd (placeOrder env (Some u) (Some items) c1) in
  saved c1 = Some (data c) /\ data c1 = data c
  /\ saved c2 = None /\ data c2 = data c.
Proof.
  intros Hu Hp Hq Hi. cbv zeta.
  rewrite placeSingleOrder_routed, single_order_run by assumption.
  rewrite placeOrder_routed, orders_place_run by assumption.
  repeat split.
Qed.

(** ** The application *)

(** X27: no request that a registration of the cart and order paths
    answers is answered with success: whatever its members, the answer is
    400 or 500, or the promise of the handler rejects with the error of
    the driver. *)
Theorem app_never_succeeds (req : request) (c : conn) (h : handler) :
  route (req_verb req) (req_path req) = Some h ->
  match fst (app env req c) with
  | Ok r => status r = 400 \/ status r = 500
  | Throw e => e = mkError (not_a_promise env)
  end.
Proof.
  unfold app. intros ->.
  destruct h; unfold handle.
  - unfold cart_add. destruct (_ || _); [cbn; auto|].
    rewrite awaited_caught. cbn. auto.
  - unfold cart_add_enhanced. destruct (_ || _); [cbn; auto|].
    destruct (nan_or_le0 _); [cbn; auto|]. rewrite awaited_caught. reflexivity.
  - unfold cart_get. destruct (negb _); [cbn; auto|].
    rewrite awaited_caught. cbn. auto.
  - unfold cart_update. destruct (_ || _); [cbn; auto|].
    destruct (le_zero _); rewrite awaited_caught; cbn; auto.
  - unfold cart_remove. destruct (_ || _); [cbn; auto|].
    rewrite awaited_caught. cbn. auto.
  - unfold orders_place. destruct (_ || _); [cbn; auto|].
    rewrite awaited_caught. reflexivity.
  - unfold orders_list. destruct (negb _); [cbn; auto|].
    rewrite awaited_caught. cbn. auto.
  - unfold order_get. destruct (_ || _); [cbn; auto|].
    rewrite awaited_caught. cbn. auto.
  - unfold cart_update_quantity. destruct (_ || _); [cbn; auto|].
    destruct (nan_or_lt1 _); [cbn; auto|]. rewrite awaited_caught. cbn. auto.
  - unfold order_get_joined. destruct (_ || _); [cbn; auto|].
    rewrite awaited_caught. cbn. auto.
  - unfold orders_list. destruct (negb _); [cbn; auto|].
    rewrite awaited_caught. cbn. auto.
  - unfold single_order. destruct (_ || _); [cbn; auto|].
    rewrite awaited_caught. cbn. auto.
Qed.

(** ** Products *)

(** X15: DELETE /api/products/delete/:id deletes the products with that
    id and is answered 500 "Failed to delete product", whether there was
    one or none: it reports neither the deletion nor "Product not found";
    orders, order lines and carts stay as they are, and a second delete
    is answered the same and changes nothing. *)
Theorem products_delete_removes (c : conn) (productId : string) (k : Z) :
  sql_int env productId = Some k ->
  let answer :=
    Ok (mkReply 500 (DError "Failed to delete product"
                       (Some (not_a_promise env)))) in
  exists c',
    products_delete env productId c = (answer, c')
    /\ products (data c')
       = List.filter (fun x => negb (p_id x =? k)) (products (data c))
    /\ orders (data c') = orders (data c)
    /\ order_items (data c') = order_items (data c)
    /\ cart (data c') = cart (data c)
    /\ products_delete env productId c' = (answer, c').
Proof.
  intros Hk. cbv zeta.
  assert (Hext : forall l : list product,
             List.filter (fun x => negb (col_eq env (p_id x) (PStr productId))) l
             = List.filter (fun x => negb (p_id x =? k)) l).
  { intros l. apply filter_ext. intros x. unfold col_eq. rewrite Hk. reflexivity. }
  unfold products_delete. rewrite awaited_caught.
  eexists. split; [reflexivity|].
  cbn [snd delete_product data with_data set_products products orders
       order_items cart].
  rewrite Hext. repeat split.
  rewrite awaited_caught. f_equal.
  unfold delete_product, with_data.
  cbn [snd data set_products products orders order_items cart saved
       next_order_id now].
  rewrite (filter_negb_twice (fun x => col_eq env (p_id x) (PStr productId))).
  reflexivity.
Qed.

End Properties.

(** POST /api/products/add *)

(** X16: POST /api/products/add never adds a product: a request without
    name, category or price is answered 400, and every other request (its
    members strings, the price a number) 500 with the details "connection
    is not defined"; the store is as it was. *)
Theorem products_add_never_inserts (c : conn) (name category : option string)
    (price : field) :
  exists r,
    products_add name category price c = (Ok r, c)
    /\ (code r = 400 \/ code r = 500)
    /\ (code r = 500 <->
        truthy_opt name && truthy_opt category && truthy price = true)
    /\ (code r = 500 ->
        doc r = DError "Internal server error" (Some "connection is not defined")).
Proof.
  unfold products_add, try_catch.
  destruct (truthy_opt name), (truthy_opt category), (truthy price); cbn;
    eexists; (split; [reflexivity|]); cbn;
    repeat split; auto; try discriminate; intros; try discriminate; lia.
Qed.

(** ** Identifiers *)

Lemma remove_first_other (a : ascii) (s : string) :
  a <> "O"%char ->
  remove_first "ORD-" (String a s) = String a (remove_first "ORD-" s).
Proof.
  intros Ha. cbn [remove_first String.prefix].
  destruct (ascii_dec "O" a) as [E|_]; [congruence | reflexivity].
Qed.

Lemma remove_first_digits (d : Decimal.uint) :
  remove_first "ORD-" (NilEmpty.string_of_uint d) = NilEmpty.string_of_uint d.
Proof.
  induction d; cbn [NilEmpty.string_of_uint]; [reflexivity|..];
    (rewrite remove_first_other by discriminate); rewrite IHd; reflexivity.
Qed.

Lemma remove_first_uint (d : Decimal.uint) :
  remove_first "ORD-" (NilZero.string_of_uint d) = NilZero.string_of_uint d.
Proof.
  destruct d; first [reflexivity | exact (remove_first_digits _)].
Qed.

(** A raw numeric id passes through [replace("ORD-", "")] unchanged. *)
Lemma remove_first_raw (n : Z) :
  remove_first "ORD-" (string_of_Z n) = string_of_Z n.
Proof.
  unfold string_of_Z. destruct (Z.to_int n) as [d|d]; cbn [NilZero.string_of_int].
  - apply remove_first_uint.
  - rewrite remove_first_other by discriminate. rewrite remove_first_uint.
    reflexivity.
Qed.

(** The display form loses its prefix. *)
Lemma remove_first_display (n : Z) :
  remove_first "ORD-" (order_display_id n) = string_of_Z n.
Proof.
  unfold order_display_id. cbn. destruct (string_of_Z n); reflexivity.
Qed.

(** X17: the decimal rendering of an id reads back as that id, and so
    does the display form ORD-<id> once [replace("ORD-", "")] has been
    applied to it. *)
Theorem display_id_round_trip (n : Z) :
  Z_of_string (string_of_Z n) = Some n
  /\ Z_of_string (remove_first "ORD-" (order_display_id n)) = Some n
  /\ Z_of_string (remove_first "ORD-" (string_of_Z n)) = Some n.
Proof.
  assert (H : Z_of_string (string_of_Z n) = Some n).
  { unfold Z_of_string, string_of_Z. rewrite NilZero.isi.
    - cbn [option_map]. rewrite DecimalZ.of_to. reflexivity.
    - destruct n; cbn; try discriminate.
      intros [= E]. exact (Unsigned.to_uint_nonnil _ E).
    - destruct n; cbn; try discriminate.
      intros [= E]. exact (Unsigned.to_uint_nonnil _ E). }
  rewrite remove_first_display, remove_first_raw. auto.
Qed.

(** ** Accounts *)

Section AccountProperties.

Variable bcrypt_hash : string -> string -> string.
Variable bcrypt_compare : string -> string -> bool.
Variable email_eq : string -> string -> bool.
Variable env : environment.

(** X18: signup never stores a user.  A request that lacks a member is
    answered 400, and so is one whose passwords differ; every other
    request is answered 500 "Database error" with the message of the
    driver, whether the email is taken or free.  The users table is as it
    was. *)
Theorem signup_never_stores (a : accounts) (salt : string)
    (first_name last_name email password confirm_password : option string) :
  exists r,
    signup bcrypt_hash email_eq env salt first_name last_name email password
           confirm_password a = (Ok r, a)
    /\ (code r = 400 \/ code r = 500)
    /\ (code r = 500 <->
        truthy_opt first_name && truthy_opt last_name && truthy_opt email
        && truthy_opt password && truthy_opt confirm_password
        && String.eqb (default "" password) (default "" confirm_password)
        = true)
    /\ (code r = 500 ->
        doc r = DError "Database error" (Some (not_a_promise env))).
Proof.
  unfold signup.
  destruct (truthy_opt first_name), (truthy_opt last_name), (truthy_opt email),
    (truthy_opt password), (truthy_opt confirm_password);
    cbn [negb orb andb];
    try (eexists; split; [reflexivity|]; cbn;
         repeat split; auto; intros; discriminate).
  destruct (String.eqb _ _); cbn [negb];
    eexists; (split; [reflexivity|]); cbn;
    repeat split; auto; intros; discriminate.
Qed.

(** X20: signin never signs a user in.  A request that lacks the email or
    the password is answered 400; every other request is answered 500
    "Database error" with the message of the driver, whatever the users
    table holds and whether the password is right or wrong.  The users
    table is as it was. *)
Theorem signin_never_succeeds (a : accounts) (email password : option string) :
  exists r,
    signin bcrypt_compare email_eq env email password a = (Ok r, a)
    /\ (code r = 400 \/ code r = 500)
    /\ (code r = 500 <-> truthy_opt email && truthy_opt password = true)
    /\ (code r = 500 ->
        doc r = DError "Database error" (Some (not_a_promise env))).
Proof.
  unfold signin.
  destruct (truthy_opt email), (truthy_opt password); cbn [negb orb andb];
    eexists; (split; [reflexivity|]); cbn;
    repeat split; auto; intros; discriminate.
Qed.

End AccountProperties.

(** ** Connections *)

Lemma getConnectionWithRetry_from (pool : nat -> option conn) (connection : conn)
    (k : nat) :
  forall (fuel attempt : nat) (waited : Z),
    pool (attempt + k)%nat = Some connection ->
    (forall j, (j < k)%nat -> pool (attempt + j)%nat = None) ->
    (k < fuel)%nat ->
    getConnectionWithRetry fuel pool attempt waited
    = Some (connection, waited + 5000 * Z.of_nat k).
Proof.
  induction k as [|k IH]; intros fuel attempt waited Hk Hbefore Hfuel.
  - destruct fuel as [|fuel]; [lia|]. cbn [getConnectionWithRetry].
    rewrite Nat.add_0_r in Hk. rewrite Hk. f_equal. f_equal. lia.
  - destruct fuel as [|fuel]; [lia|]. cbn [getConnectionWithRetry].
    pose proof (Hbefore 0%nat ltac:(lia)) as H0. rewrite Nat.add_0_r in H0.
    rewrite H0. rewrite (IH fuel (S attempt) (waited + 5000)).
    + f_equal. f_equal. lia.
    + rewrite <- Hk. f_equal. lia.
    + intros j Hj. rewrite <- (Hbefore (S j)) by lia. f_equal. lia.
    + lia.
Qed.

(** X21: when the pool fails k times and then hands out a connection,
    [getConnectionWithRetry] resolves to that connection after k waits of
    5000 ms: the failures are retried, not passed on. *)
Theorem getConnectionWithRetry_first_success (pool : nat -> option conn)
    (connection : conn) (k fuel : nat) :
  pool k = Some connection ->
  (forall j, (j < k)%nat -> pool j = None) ->
  (k < fuel)%nat ->
  getConnectionWithRetry fuel pool 0 0 = Some (connection, 5000 * Z.of_nat k).
Proof.
  intros Hk Hbefore Hfuel.
  rewrite (getConnectionWithRetry_from pool connection k fuel 0 0); auto.
Qed.

(** ** Registrations *)

Ltac split_segment :=
  match goal with
  | |- context [String.eqb ?lit ?x] =>
      first [ is_var x; destruct (String.eqb_spec lit x); [subst x|]
            | let b := eval vm_compute in (String.eqb lit x) in
              change (String.eqb lit x) with b ]
  | |- context [truthy_str ?x] => is_var x; destruct x
  | |- context [match ?x with EmptyString => _ | String _ _ => _ end] =>
      is_var x; destruct x
  | |- context [match ?l with [] => _ | _ :: _ => _ end] =>
      is_var l; destruct l
  end.

Ltac by_segments path :=
  destruct path as [|? [|? [|? [|? [|? ?]]]]];
  unfold route, registrations, route_line, all_registrations;
  cbn [route_in route_line_in verb_eqb match_path andb];
  unfold same_segment;
  repeat match goal with
         | |- context [lowercase (String ?a ?s)] =>
             let l := eval vm_compute in (lowercase (String a s)) in
             change (lowercase (String a s)) with l
         end;
  repeat match goal with
         | |- context [lowercase ?x] => is_var x; generalize (lowercase x); intro
         end;
  repeat (split_segment; cbn [andb truthy_str]).

(** X22: the registrations of the cart and order paths answer as they do
    in the whole file: a request one of their handlers answers reaches the
    line that handler stands on, and any other request reaches none of
    their lines. *)
Theorem route_line_agrees (v : verb) (path : list string) :
  match route v path with
  | Some h => route_line v path = Some (line_of h)
  | None =>
      match route_line v path with
      | Some line => In line [42; 91; 134; 488; 1062; 1258; 1288; 1326]
      | None => True
      end
  end.
Proof.
  destruct v; by_segments path; cbn; auto 12.
Qed.

(** X23: four registrations can never answer: the second POST /api/cart
    (line 238), the second GET /api/orders/:orderId (line 799), the second
    GET /api/orders (line 875) and the second GET /api/products with its
    search and filters (line 1130) repeat a method and path registered
    above them. *)
Theorem shadowed_registrations (v : verb) (path : list string) (line : Z) :
  route_line v path = Some line ->
  In line [42; 91; 134; 171; 337; 397; 449; 488; 528; 590; 674; 747; 966;
           1062; 1258; 1288; 1326].
Proof.
  destruct v; by_segments path; intros [= <-]; cbn; auto 20.
Qed.

(** * The properties on the sample stores *)

Ltac given :=
  first [ discriminate | reflexivity | (unfold safe_integer; lia) | exact I ].

(** ** Checkout *)

Lemma placeOrder_stores_nothing_example :
  exists c',
    placeOrder sample (Some 1) (Some [mkItem 1 2 1000; mkItem 2 1 500])
               shop_with_cart
    = (Throw (mkError (not_a_promise sample)), c')
    /\ data c' = data shop_with_cart
    /\ next_order_id c' = next_order_id shop_with_cart
    /\ saved c' = None.
Proof.
  apply (placeOrder_stores_nothing sample shop_with_cart 1
           [mkItem 1 2 1000; mkItem 2 1 500]); given.
Defined.

(** C3 as stated fails: product 99 is not in the catalog and the answer is
    500, not 404. *)
Lemma placeSingleOrder_unknown_product_500 :
  (forall prod, In prod (products (data shop)) -> p_id prod <> 99)
  /\ exists r c',
       placeSingleOrder sample (Some 1) (Some 99) (Some 1) shop = (Ok r, c')
       /\ status r = 500 /\ status r <> 404.
Proof.
  split.
  - intros prod [<-|[<-|[]]]; discriminate.
  - eexists _, _. split; [vm_compute; reflexivity|].
    split; [reflexivity|discriminate].
Qed.

Lemma placeSingleOrder_unknown_product_example :
  exists r c',
    placeSingleOrder sample (Some 1) (Some 99) (Some 1) shop = (Ok r, c')
    /\ status r = 500
    /\ (status r = 500 ->
        exists details, json r = BError "Failed to create order" details)
    /\ orders (data c') = orders (data shop)
    /\ order_items (data c') = order_items (data shop).
Proof.
  apply (placeSingleOrder_unknown_product sample shop (Some 1) (Some 99) (Some 1)).
  intros prod [<-|[<-|[]]]; discriminate.
Defined.

(** ** Cart *)

Lemma addOrMerge_skips_validation_example :
  route POST ["api"; "cart"] = Some h_cart_add
  /\ addOrMerge sample (Some 1) (Some 1) (Some (-1)) shop
     = (failed sample "Failed to manage cart", shop)
  /\ (-1 <= 0 ->
      cart_add_enhanced sample (Some 1) (Some 1) (Some (-1)) shop
      = (Ok (mkResponse 400 (BError "Quantity must be a positive number" None)),
         shop)).
Proof.
  apply (addOrMerge_skips_validation sample shop 1 1 (-1)); given.
Defined.

(** C5 as stated fails: the pair (1, 1) has no row, and after
    [setQuantity(1, 1, 3)] it has one. *)
Lemma setQuantity_creates_row :
  cart_rows 1 1 (data shop) = []
  /\ cart_rows 1 1 (data (snd (setQuantity sample (Some 1) (Some 1) (Some 3) shop)))
     = [mkCart 1 1 3].
Proof. split; reflexivity. Qed.

Lemma setQuantity_upserts_example :
  (exists r c',
     setQuantity sample (Some 1) (Some 1) (Some 3) shop = (Ok r, c')
     /\ status r <> 404
     /\ cart_rows 1 1 (data c') = [mkCart 1 1 3])
  /\ cart (data (snd (cart_update_quantity sample (Some 1) (Some 1) (Some 3) shop)))
     = cart (data shop).
Proof.
  apply (setQuantity_upserts sample shop 1 1 3); given.
Defined.

Lemma addOrMerge_calls_store_nothing_example :
  let request := Received (Some 1) (Some 1) (Some 1) in
  let answer := Answered (failed sample "Failed to manage cart") in
  (exists tasks,
     run_schedule sample [0; 1; 0; 1]%nat (replicate 2 request, shop)
     = (tasks, shop)
     /\ Forall (fun t => t = request \/ t = answer) tasks)
  /\ run_schedule sample (seq 0 2) (replicate 2 request, shop)
     = (replicate 2 answer, shop).
Proof.
  apply (addOrMerge_calls_store_nothing sample shop 1 1 2 [0; 1; 0; 1]%nat); given.
Defined.

Lemma addOrMerge_twice_stores_nothing_example :
  let first := addOrMerge sample (Some 1) (Some 1) (Some 1) shop in
  let second := addOrMerge sample (Some 1) (Some 1) (Some 2) (snd first) in
  fst first = failed sample "Failed to manage cart"
  /\ fst second = failed sample "Failed to manage cart"
  /\ snd second = shop.
Proof.
  apply (addOrMerge_twice_stores_nothing sample shop 1 1 1 2); given.
Defined.

Lemma setQuantity_zero_is_remove_example :
  let c1 := snd (setQuantity sample (Some 1) (Some 1) (Some 0) shop_with_cart) in
  let c2 := snd (remove sample (Some 1) (Some 1) shop_with_cart) in
  c1 = c2
  /\ fst (setQuantity sample (Some 1) (Some 1) (Some 0) shop_with_cart)
     = fst (remove sample (Some 1) (Some 1) shop_with_cart)
  /\ cart_rows 1 1 (data c1) = []
  /\ forall item,
       In item (cart_items_of (fst (listWithDetails sample "1" c1))) ->
       cv_product_id item <> 1.
Proof.
  apply (setQuantity_zero_is_remove sample shop_with_cart 1 1 0 "1"); given.
Defined.

(** ** Orders *)

Lemma getOrder_always_fails_example :
  getOrder sample (Some "2") "ORD-1" shop_with_orders
  = (failed sample "Failed to retrieve order details", shop_with_orders)
  /\ getOrder sample (Some "1") "1" shop_with_orders
     = (failed sample "Failed to retrieve order details", shop_with_orders).
Proof.
  split.
  - apply (getOrder_always_fails sample shop_with_orders "2" "ORD-1"); given.
  - apply (getOrder_always_fails sample shop_with_orders "1" "1"); given.
Defined.

Lemma listOrders_always_fails_example :
  listOrders sample (Some "1") shop
  = (failed sample "Failed to retrieve orders", shop).
Proof.
  apply (listOrders_always_fails sample shop "1"); given.
Defined.

(** ** The rest of the application *)

Lemma cart_writers_frame_example :
  snd (addOrMerge sample (Some 1) (Some 1) (Some 5) shop_with_cart)
  = shop_with_cart
  /\ only_pair_changed 1 1 shop_with_cart
       (snd (setQuantity sample (Some 1) (Some 1) (Some 5) shop_with_cart))
  /\ only_pair_changed 1 1 shop_with_cart
       (snd (remove sample (Some 1) (Some 1) shop_with_cart))
  /\ only_pair_changed 1 1 shop_with_cart
       (snd (cart_update_quantity sample (Some 1) (Some 1) (Some 5)
               shop_with_cart)).
Proof.
  apply (cart_writers_frame sample shop_with_cart (Some 1) (Some 1) (Some 5));
    unfold exact_member; given.
Defined.

Lemma listWithDetails_always_fails_example :
  listWithDetails sample "1" shop_with_cart
  = (failed sample "Error fetching cart", shop_with_cart).
Proof.
  apply (listWithDetails_always_fails sample shop_with_cart "1"); given.
Defined.

Lemma setQuantity_sets_quantity_example :
  exists c',
    setQuantity sample (Some 1) (Some 1) (Some 5) shop_with_cart
    = (failed sample "Database error", c')
    /\ cart_rows 1 1 (data c') = [mkCart 1 1 5]
    /\ setQuantity sample (Some 1) (Some 1) (Some 5) c'
       = (failed sample "Database error", c').
Proof.
  apply (setQuantity_sets_quantity sample shop_with_cart 1 1 5 1); given.
Defined.

Lemma remove_deletes_rows_example :
  exists c',
    remove sample (Some 1) (Some 1) shop_with_cart
    = (failed sample "Database error", c')
    /\ cart_rows 1 1 (data c') = []
    /\ remove sample (Some 1) (Some 1) c' = (failed sample "Database error", c').
Proof.
  apply (remove_deletes_rows sample shop_with_cart 1 1); given.
Defined.

Lemma cart_add_enhanced_validates_example :
  (-1 <= 0 ->
   cart_add_enhanced sample (Some 1) (Some 1) (Some (-1)) shop
   = (Ok (mkResponse 400 (BError "Quantity must be a positive number" None)),
      shop))
  /\ (0 < -1 ->
      cart_add_enhanced sample (Some 1) (Some 1) (Some (-1)) shop
      = (Throw (mkError (not_a_promise sample)),
         mkConn (data shop) None (next_order_id shop) (now shop))).
Proof.
  apply (cart_add_enhanced_validates sample shop 1 1 (-1)); given.
Defined.

Lemma transaction_left_open_example :
  let c1 := snd (placeSingleOrder sample (Some 1) (Some 2) (Some 3) shop) in
  let c2 := snd (placeOrder sample (Some 1) (Some [mkItem 1 1 1000]) c1) in
  saved c1 = Some (data shop) /\ data c1 = data shop
  /\ saved c2 = None /\ data c2 = data shop.
Proof.
  apply (transaction_left_open sample shop 1 2 3 [mkItem 1 1 1000]); given.
Defined.

Lemma app_never_succeeds_example :
  match fst (app sample
               (mkRequest PUT ["api"; "cart"; "update-quantity"] None
                          None None (Some 1) (Some 1) (Some 2) None)
               shop_with_cart) with
  | Ok r => status r = 400 \/ status r = 500
  | Throw e => e = mkError (not_a_promise sample)
  end.
Proof.
  apply (app_never_succeeds sample
           (mkRequest PUT ["api"; "cart"; "update-quantity"] None
                      None None (Some 1) (Some 1) (Some 2) None)
           shop_with_cart h_cart_update_quantity).
  reflexivity.
Defined.

Lemma products_delete_removes_example :
  let answer :=
    Ok (mkReply 500 (DError "Failed to delete product"
                       (Some (not_a_promise sample)))) in
  exists c',
    products_delete sample "1" shop_with_orders = (answer, c')
    /\ products (data c')
       = List.filter (fun x => negb (p_id x =? 1)) (products (data shop_with_orders))
    /\ orders (data c') = orders (data shop_with_orders)
    /\ order_items (data c') = order_items (data shop_with_orders)
    /\ cart (data c') = cart (data shop_with_orders)
    /\ products_delete sample "1" c' = (answer, c').
Proof.
  apply (products_delete_removes sample shop_with_orders "1" 1); given.
Defined.

Lemma getConnectionWithRetry_first_success_example :
  getConnectionWithRetry 3 (fun n => if (n <? 2)%nat then None else Some shop) 0 0
  = Some (shop, 10000).
Proof.
  apply (getConnectionWithRetry_first_success
           (fun n => if (n <? 2)%nat then None else Some shop) shop 2 3).
  - reflexivity.
  - intros [|[|j]] Hj; [reflexivity | reflexivity | lia].
  - lia.
Defined.

Lemma shadowed_registrations_example :
  In 590 [42; 91; 134; 171; 337; 397; 449; 488; 528; 590; 674; 747; 966;
          1062; 1258; 1288; 1326].
Proof.
  apply (shadowed_registrations GET ["API"; "Orders"; ""] 590). reflexivity.
Defined.
